(** * Strategic location analysis for a new distribution centre

    Shallow embedding of [desafio-novocd-magalu.py].  The script compares
    candidate cities with a weighted score over three criteria (rent cost,
    average delivery time, economic output of the neighbouring states),
    prints a table and a conclusion, and then draws two charts.

    Numbers.  The script computes with binary64 floats.  The embedding of
    the whole script computes with exact rationals ([Q], compared with
    [==]); the one float value that changes the control flow, the infinity
    produced by [1 / 0], is kept as a separate constructor, and rounding to
    two decimals is done on the exact value.  The arithmetic of section 2
    is embedded a second time, in module [B64], on primitive binary64
    floats.  The claims are stated of the exact values as far as rounding
    keeps them (which value is computed from which, the order of the
    scores, the exact zero of the minimum); a lemma that holds of the exact
    values only says so, and where the floats of the script differ from the
    exact values a run of [B64] shows it.

    Libraries.  [pandas], [scikit-learn] and [plotly] are imported by the
    script, not defined by it.  Each library operation the script calls is
    modelled below under the name it has in the source; the script's own
    code (the data, the loop over the destinations, the sequence of column
    assignments, the prints and the order of the chart calls) is translated
    from the source. *)

From Stdlib Require Import Floats Uint63.
From Stdlib Require Import QArith Qminmax Qround Lqa Lia.
From stdpp Require Import gmap strings list pretty.
Local Open Scope Q_scope.
Set Warnings "-inexact-float".

(** ** Exceptions and results *)

Inductive excecao : Type :=
  | ValueError
  | KeyError
  | TypeError
  | PlotlyError.

Inductive resultado (A : Type) : Type :=
  | Ok (a : A)
  | Raise (e : excecao).
Arguments Ok {A} a.
Arguments Raise {A} e.

#[global] Instance resultado_ret : MRet resultado := @Ok.
#[global] Instance resultado_bind : MBind resultado := λ A B f m,
  match m with
  | Ok a => f a
  | Raise e => Raise e
  end.

(** ** Numbers *)

(** A float that is either finite or the infinity [1 / 0.0] evaluates to
    inside a pandas Series. *)
Inductive float : Type :=
  | Finito (q : Q)
  | Infinito.

(** [1 / x] on a Series element. *)
Definition recip (x : Q) : float :=
  if Qeq_bool x 0 then Infinito else Finito (1 / x).

Definition soma (s : list Q) : Q := foldr Qplus 0 s.

(** [Series.mean()]. *)
Definition media (s : list Q) : Q := soma s / inject_Z (Z.of_nat (length s)).

(** Round half to even, to an integer. *)
Definition rint (x : Q) : Z :=
  let f := Qfloor x in
  match Qcompare (x - inject_Z f) (1 # 2) with
  | Lt => f
  | Gt => (f + 1)%Z
  | Eq => if Z.even f then f else (f + 1)%Z
  end.

(** Modelled from the spec: [DataFrame.round] is pandas code.  Section 4.1:
    the table is rounded to 2 decimal places for display.  [.round(2)] on a
    numeric column element. *)
Definition round2 (x : Q) : Q := Qred (inject_Z (rint (x * 100)) / 100).

(** The format [f'{x:.2f}']: sign, integer part, two decimals. *)
Definition fmt2 (x : Q) : string :=
  let a := Z.abs (rint (x * 100)) in
  let frac := (a mod 100)%Z in
  (if Qle_bool 0 x then "" else "-")
    +:+ pretty (a / 100)%Z +:+ "."
    +:+ (if (frac <? 10)%Z then "0" else "") +:+ pretty frac.

(** ** Library operations: pandas *)

(** A frame with the text column ['Cidade'] and named numeric columns. *)
Record DataFrame : Type := {
  df_Cidade : list string;
  df_colunas : gmap string (list Q)
}.

(** Modelled from the spec: [pd.DataFrame] is pandas code.  Section 4.1:
    the run fails if a city is missing a required raw metric.
    [pd.DataFrame(dict)] raises unless every column has as many entries as
    there are cities. *)
Definition pd_DataFrame (cidades : list string) (colunas : gmap string (list Q))
  : resultado DataFrame :=
  if decide (map_Forall (λ _ col, length col = length cidades) colunas)
  then Ok {| df_Cidade := cidades; df_colunas := colunas |}
  else Raise ValueError.

(** The same for a dict with ['Cidade'] and one numeric column: the frame
    as its list of rows. *)
Definition pd_DataFrame2 (cidades : list string) (coluna : list Q)
  : resultado (list (string * Q)) :=
  if decide (length coluna = length cidades)
  then Ok (zip cidades coluna)
  else Raise ValueError.

(** Modelled from the spec: column selection is pandas code.  Section 9:
    named lookup tables keyed by identifier.  [df[nome]] as an operand of
    [/]: a name that is not a column raises, and the text column cannot be
    divided. *)
Definition getitem (colunas : gmap string (list Q)) (nome : string)
  : resultado (list Q) :=
  if decide (nome = "Cidade") then Raise TypeError
  else match colunas !! nome with
       | Some col => Ok col
       | None => Raise KeyError
       end.

(** Modelled from the spec: [pd.merge] is pandas code.  Section 6: a
    mapping from city to its metrics, joinable by city key.
    [pd.merge(left, right, on='Cidade')] is the inner join on the key, in
    the order of the left rows. *)
Definition merge {A B : Type} (left : list (string * A)) (right : list (string * B))
  : list (string * (A * B)) :=
  '(k, a) ← left;
  '(k', b) ← right;
  if decide (k = k') then [(k, (a, b))] else [].

(** Modelled from the spec: [DataFrame.mean] is pandas code.  Section 4.1:
    the arithmetic mean over all destinations; the run fails if the
    destination list is empty.  [df[nomes].mean(axis=1)] on a frame of [n]
    rows, given the selected columns.  With no column selected pandas
    yields NaN in every row, which makes the later [idxmax] / [loc] lookup
    raise; the exception is raised here. *)
Definition mean_axis1 (n : nat) (cols : list (list Q)) : resultado (list Q) :=
  match cols with
  | [] => Raise ValueError
  | _ => Ok ((λ i, media ((λ col, default 0 (col !! i)) <$> cols)) <$> seq 0 n)
  end.

(** Modelled from the spec: [Series.idxmax] is pandas code.  Glossary,
    argmax selection: the candidate with the highest score, ties resolved by
    first occurrence in input order.  [Series.idxmax()] on a default integer
    index scans the values once and moves to a later position only for a
    strictly greater value. *)
Fixpoint idxmax_desde (i melhor : nat) (valor : Q) (s : list Q) : nat :=
  match s with
  | [] => melhor
  | x :: resto =>
      if Qle_bool x valor
      then idxmax_desde (S i) melhor valor resto
      else idxmax_desde (S i) i x resto
  end.

Definition idxmax (s : list Q) : resultado nat :=
  match s with
  | [] => Raise ValueError
  | x :: resto => Ok (idxmax_desde 1 0 x resto)
  end.

(** ** Library operations: scikit-learn's MinMaxScaler *)

(** Modelled from the spec: [MinMaxScaler] is imported from scikit-learn,
    its code is not part of the script.  Section 4.1 step 3 gives
    [normalized = (value - min) / (max - min)] over all cities and leaves
    the case [max == min] open.  The definitions follow the library's
    fitted attributes with the default feature range (0, 1): a zero range
    is replaced by 1 before dividing, the transform is
    [X * scale_ + min_]. *)
Record MinMaxScaler : Type := {
  data_min_ : Q;
  data_max_ : Q;
  data_range_ : Q;
  scale_ : Q;
  min_ : Q
}.

Definition minimo (col : list Q) : Q :=
  match col with
  | [] => 0
  | x :: resto => foldl Qmin x resto
  end.

Definition maximo (col : list Q) : Q :=
  match col with
  | [] => 0
  | x :: resto => foldl Qmax x resto
  end.

(** A range of zero is replaced by 1 before it divides. *)
Definition handle_zeros_in_scale (s : Q) : Q :=
  if Qeq_bool s 0 then 1 else s.

(** Modelled from the spec: input validation of the estimator.  Section
    4.1: the run fails on a division by zero.  Infinities are refused, and
    so is an array without rows. *)
Definition finito (x : float) : resultado Q :=
  match x with
  | Finito q => Ok q
  | Infinito => Raise ValueError
  end.

Definition check_array (X : list (list float)) : resultado (list (list Q)) :=
  Xq ← mapM (mapM finito) X;
  if decide (Forall (λ col, col ≠ []) Xq) then Ok Xq else Raise ValueError.

(** Modelled from the spec: [fit] on one feature (one column), section 4.1
    step 3; the minimum and maximum are taken over all rows. *)
Definition fit (col : list Q) : MinMaxScaler :=
  let data_min := minimo col in
  let data_max := maximo col in
  let data_range := data_max - data_min in
  let scale := (1 - 0) / handle_zeros_in_scale data_range in
  {| data_min_ := data_min;
     data_max_ := data_max;
     data_range_ := data_range;
     scale_ := scale;
     min_ := 0 - data_min * scale |}.

(** Modelled from the spec: [transform] on one feature, section 4.1
    step 3. *)
Definition transform (sc : MinMaxScaler) (col : list Q) : list Q :=
  (λ x, x * scale_ sc + min_ sc) <$> col.

(** Modelled from the spec: [fit_transform] on an array given by its
    columns, section 4.1 step 3: each metric is normalized independently. *)
Definition fit_transform (X : list (list float)) : resultado (list (list Q)) :=
  Xq ← check_array X;
  Ok ((λ col, transform (fit col) col) <$> (Xq : list (list Q))).

(** ** Input data *)

(** The dict [pesos]. *)
Record Pesos : Type := {
  Custo : Q;
  Logistica : Q;
  Consumo : Q
}.

(** The literal data of section 1 of the script.  A dict with the key
    ['Cidade'] is the pair of its ['Cidade'] list and its numeric
    column(s). *)
Record Dados : Type := {
  custos_imobiliarios : list string * list Q;
  capitais_ne : list string;
  distancias : list string * gmap string (list Q);
  potencial_consumo : list string * list Q;
  pesos : Pesos
}.

#[global] Instance Q_inhabited : Inhabited Q := populate 0.

Definition pib_estados : gmap string Q :=
  list_to_map
    [("BA", 29.0); ("PE", 17.7); ("CE", 15.4); ("MA", 10.1); ("RN", 6.8);
     ("PB", 6.2); ("AL", 5.5); ("PI", 5.2); ("SE", 4.1)].

Definition dados : Dados := {|
  custos_imobiliarios := (["Recife"; "Salvador"], [18.50; 21.00]);
  capitais_ne :=
    ["Aracaju"; "Maceió"; "João Pessoa"; "Natal"; "Fortaleza"; "Teresina";
     "São Luís"];
  distancias :=
    (["Recife"; "Salvador"],
     list_to_map
       [("Aracaju", [503; 321]);
        ("Maceió", [257; 580]);
        ("João Pessoa", [120; 933]);
        ("Natal", [290; 1101]);
        ("Fortaleza", [754; 1200]);
        ("Teresina", [1138; 1145]);
        ("São Luís", [1586; 1577])]);
  potencial_consumo :=
    (["Recife"; "Salvador"],
     [pib_estados !!! "PE" + pib_estados !!! "PB" + pib_estados !!! "RN"
        + pib_estados !!! "CE" + pib_estados !!! "AL";
      pib_estados !!! "BA" + pib_estados !!! "SE" + pib_estados !!! "AL"
        + pib_estados !!! "PE"]);
  pesos := {| Custo := 0.30; Logistica := 0.40; Consumo := 0.30 |}
|}.

(** ** Analysis (section 2 of the script) *)

(** The loop [for capital in capitais_ne: df_tempos[capital] =
    df_tempos[capital] / 60]. *)
Fixpoint converter_em_horas (capitais : list string) (colunas : gmap string (list Q))
  : resultado (gmap string (list Q)) :=
  match capitais with
  | [] => Ok colunas
  | capital :: resto =>
      col ← getitem colunas capital;
      converter_em_horas resto (<[capital := (λ x, x / 60) <$> col]> colunas)
  end.

(** 2.1: [df_tempos[['Cidade', 'Tempo_Medio_Entrega']]], as rows. *)
Definition df_tempos (d : Dados) : resultado (list (string * Q)) :=
  df_distancias ← pd_DataFrame (distancias d).1 (distancias d).2;
  horas ← converter_em_horas (capitais_ne d) (df_colunas df_distancias);
  cols ← mapM (getitem horas) (capitais_ne d);
  Tempo_Medio_Entrega ← mean_axis1 (length (df_Cidade df_distancias)) cols;
  Ok (zip (df_Cidade df_distancias) Tempo_Medio_Entrega).

(** The frame [df_analise] at the end of section 2, by columns. *)
Record Analise : Type := {
  col_Cidade : list string;
  col_Custo_m2_Aluguel : list Q;
  col_Tempo_Medio_Entrega : list Q;
  col_Potencial_PIB_Vizinhos : list Q;
  col_Inverso_Custo : list float;
  col_Inverso_Tempo_Medio : list float;
  col_Score_Custo : list Q;
  col_Score_Logistica : list Q;
  col_Score_Consumo : list Q;
  col_Pontuacao_Final : list Q
}.

(** One row of [df_analise]. *)
Record Linha : Type := {
  Cidade : string;
  Custo_m2_Aluguel : Q;
  Tempo_Medio_Entrega : Q;
  Potencial_PIB_Vizinhos : Q;
  Inverso_Custo : float;
  Inverso_Tempo_Medio : float;
  Score_Custo : Q;
  Score_Logistica : Q;
  Score_Consumo : Q;
  Pontuacao_Final : Q
}.

(** 2.2 to 2.4. *)
Definition df_analise (d : Dados) : resultado Analise :=
  df_custos ← pd_DataFrame2 (custos_imobiliarios d).1 (custos_imobiliarios d).2;
  tempos ← df_tempos d;
  df_consumo ← pd_DataFrame2 (potencial_consumo d).1 (potencial_consumo d).2;
  let unido := merge (merge df_custos tempos) df_consumo in
  let custo := (λ r, r.2.1.1) <$> unido in
  let tempo := (λ r, r.2.1.2) <$> unido in
  let potencial := (λ r, r.2.2) <$> unido in
  let inverso_custo := recip <$> custo in
  let inverso_tempo := recip <$> tempo in
  scores ← fit_transform [inverso_custo; inverso_tempo; Finito <$> potencial];
  match scores with
  | [score_custo; score_logistica; score_consumo] =>
      Ok {| col_Cidade := (λ r, r.1) <$> unido;
            col_Custo_m2_Aluguel := custo;
            col_Tempo_Medio_Entrega := tempo;
            col_Potencial_PIB_Vizinhos := potencial;
            col_Inverso_Custo := inverso_custo;
            col_Inverso_Tempo_Medio := inverso_tempo;
            col_Score_Custo := score_custo;
            col_Score_Logistica := score_logistica;
            col_Score_Consumo := score_consumo;
            col_Pontuacao_Final :=
              zip_with Qplus
                (zip_with Qplus
                   ((λ s, s * Custo (pesos d)) <$> score_custo)
                   ((λ s, s * Logistica (pesos d)) <$> score_logistica))
                ((λ s, s * Consumo (pesos d)) <$> score_consumo) |}
  | _ => Raise ValueError
  end.

(** Row [i] of the frame. *)
Definition linha (df : Analise) (i : nat) : option Linha :=
  cidade ← col_Cidade df !! i;
  custo ← col_Custo_m2_Aluguel df !! i;
  tempo ← col_Tempo_Medio_Entrega df !! i;
  potencial ← col_Potencial_PIB_Vizinhos df !! i;
  inverso_custo ← col_Inverso_Custo df !! i;
  inverso_tempo ← col_Inverso_Tempo_Medio df !! i;
  score_custo ← col_Score_Custo df !! i;
  score_logistica ← col_Score_Logistica df !! i;
  score_consumo ← col_Score_Consumo df !! i;
  pontuacao ← col_Pontuacao_Final df !! i;
  Some {| Cidade := cidade;
          Custo_m2_Aluguel := custo;
          Tempo_Medio_Entrega := tempo;
          Potencial_PIB_Vizinhos := potencial;
          Inverso_Custo := inverso_custo;
          Inverso_Tempo_Medio := inverso_tempo;
          Score_Custo := score_custo;
          Score_Logistica := score_logistica;
          Score_Consumo := score_consumo;
          Pontuacao_Final := pontuacao |}.

Definition linhas (df : Analise) : list Linha :=
  omap (linha df) (seq 0 (length (col_Cidade df))).

(** [df.loc[i]] on the default integer index. *)
Definition loc (df : Analise) (i : nat) : resultado Linha :=
  match linha df i with
  | Some r => Ok r
  | None => Raise KeyError
  end.

(** 3.1: the row of the winning city. *)
Definition cidade_vencedora (df : Analise) : resultado Linha :=
  i ← idxmax (col_Pontuacao_Final df);
  loc df i.

(** ** Binary64 arithmetic of section 2 *)

(** The numeric columns of the script are [float64].  The definitions above
    compute with the exact values; the ones of this module evaluate the
    expressions of lines 54 to 79 on the kernel's primitive floats, which
    are the binary64 numbers of IEEE 754 with round to nearest even, the
    arithmetic of Python and numpy: every [+], [-], [*] and [/] below is
    one correctly rounded operation, in the order in which the script and
    the libraries apply them.  The input is the data after the two merges,
    city by city (its rent, its distances to the destinations and its
    economic output); the result is the numeric columns of [df_analise]. *)
Module B64.

(** Modelled from the spec: [DataFrame.mean] is pandas code.  Section 4.1:
    the arithmetic mean over all destinations.  The entries of a row are
    added from the left, and the sum is divided by their number. *)
Definition soma (s : list PrimFloat.float) : PrimFloat.float :=
  foldl PrimFloat.add 0%float s.

Definition media (s : list PrimFloat.float) : PrimFloat.float :=
  (soma s / PrimFloat.of_uint63 (Uint63.of_Z (Z.of_nat (length s))))%float.

(** Modelled from the spec: [MinMaxScaler] is scikit-learn code, see
    above; section 4.1 step 3.  The fitted attributes, in binary64. *)
Record MinMaxScaler : Type := {
  data_min_ : PrimFloat.float;
  data_max_ : PrimFloat.float;
  data_range_ : PrimFloat.float;
  scale_ : PrimFloat.float;
  min_ : PrimFloat.float
}.

Definition minimo (col : list PrimFloat.float) : PrimFloat.float :=
  match col with
  | [] => 0%float
  | x :: resto => foldl (λ m y, if (y <? m)%float then y else m) x resto
  end.

Definition maximo (col : list PrimFloat.float) : PrimFloat.float :=
  match col with
  | [] => 0%float
  | x :: resto => foldl (λ m y, if (m <? y)%float then y else m) x resto
  end.

(** The machine epsilon of binary64, [2^-52]. *)
Definition eps : PrimFloat.float := 0x1p-52%float.

(** Modelled from the spec: section 4.1 leaves the case [max == min]
    open.  The library replaces by 1 a range that is zero or too close to
    zero to divide by, which it takes to be one below [10 * eps]. *)
Definition handle_zeros_in_scale (s : PrimFloat.float) : PrimFloat.float :=
  if (s <? 10 * eps)%float then 1%float else s.

(** Modelled from the spec: input validation of the estimator.  Section
    4.1: the run fails on a division by zero.  NaN and the infinities are
    refused, and so is an array without rows. *)
Definition finito (x : PrimFloat.float) : resultado PrimFloat.float :=
  if PrimFloat.is_finite x then Ok x else Raise ValueError.

Definition check_array (X : list (list PrimFloat.float))
  : resultado (list (list PrimFloat.float)) :=
  Xf ← mapM (mapM finito) X;
  if decide (Forall (λ col, col ≠ []) Xf) then Ok Xf else Raise ValueError.

(** Modelled from the spec: [fit] on one feature (one column), section 4.1
    step 3. *)
Definition fit (col : list PrimFloat.float) : MinMaxScaler :=
  let data_min := minimo col in
  let data_max := maximo col in
  let data_range := (data_max - data_min)%float in
  let scale := ((1 - 0) / handle_zeros_in_scale data_range)%float in
  {| data_min_ := data_min;
     data_max_ := data_max;
     data_range_ := data_range;
     scale_ := scale;
     min_ := (0 - data_min * scale)%float |}.

(** Modelled from the spec: [transform] on one feature, section 4.1
    step 3: [X * scale_ + min_], rounded after the product and after the
    sum. *)
Definition transform (sc : MinMaxScaler) (col : list PrimFloat.float)
  : list PrimFloat.float :=
  (λ x, (x * scale_ sc + min_ sc)%float) <$> col.

(** Modelled from the spec: [fit_transform] on an array given by its
    columns, section 4.1 step 3. *)
Definition fit_transform (X : list (list PrimFloat.float))
  : resultado (list (list PrimFloat.float)) :=
  Xf ← check_array X;
  Ok ((λ col, transform (fit col) col) <$> (Xf : list (list PrimFloat.float))).

(** The dict [pesos]. *)
Record Pesos : Type := {
  Custo : PrimFloat.float;
  Logistica : PrimFloat.float;
  Consumo : PrimFloat.float
}.

(** The weights of line 74. *)
Definition pesos : Pesos :=
  {| Custo := 0.30; Logistica := 0.40; Consumo := 0.30 |}.

(** One city of the input: its rent, its distances to the destinations, in
    the order of [capitais_ne], and its economic output. *)
Record Entrada : Type := {
  Cidade : string;
  Custo_m2_Aluguel : PrimFloat.float;
  Distancias : list PrimFloat.float;
  Potencial_PIB_Vizinhos : PrimFloat.float
}.

(** The numeric columns of [df_analise]. *)
Record Analise : Type := {
  col_Custo_m2_Aluguel : list PrimFloat.float;
  col_Tempo_Medio_Entrega : list PrimFloat.float;
  col_Potencial_PIB_Vizinhos : list PrimFloat.float;
  col_Inverso_Custo : list PrimFloat.float;
  col_Inverso_Tempo_Medio : list PrimFloat.float;
  col_Score_Custo : list PrimFloat.float;
  col_Score_Logistica : list PrimFloat.float;
  col_Score_Consumo : list PrimFloat.float;
  col_Pontuacao_Final : list PrimFloat.float
}.

(** Lines 55 to 57 for one city: every distance divided by 60, and the mean
    of the quotients. *)
Definition Tempo_Medio_Entrega (e : Entrada) : PrimFloat.float :=
  media ((λ x, (x / 60)%float) <$> Distancias e).

(** 2.3 and 2.4, lines 65 to 79. *)
Definition df_analise (p : Pesos) (unido : list Entrada) : resultado Analise :=
  let custo := Custo_m2_Aluguel <$> unido in
  let tempo := Tempo_Medio_Entrega <$> unido in
  let potencial := Potencial_PIB_Vizinhos <$> unido in
  let inverso_custo := (λ x, (1 / x)%float) <$> custo in
  let inverso_tempo := (λ x, (1 / x)%float) <$> tempo in
  scores ← fit_transform [inverso_custo; inverso_tempo; potencial];
  match scores with
  | [score_custo; score_logistica; score_consumo] =>
      Ok {| col_Custo_m2_Aluguel := custo;
            col_Tempo_Medio_Entrega := tempo;
            col_Potencial_PIB_Vizinhos := potencial;
            col_Inverso_Custo := inverso_custo;
            col_Inverso_Tempo_Medio := inverso_tempo;
            col_Score_Custo := score_custo;
            col_Score_Logistica := score_logistica;
            col_Score_Consumo := score_consumo;
            col_Pontuacao_Final :=
              zip_with PrimFloat.add
                (zip_with PrimFloat.add
                   ((λ s, (s * Custo p)%float) <$> score_custo)
                   ((λ s, (s * Logistica p)%float) <$> score_logistica))
                ((λ s, (s * Consumo p)%float) <$> score_consumo) |}
  | _ => Raise ValueError
  end.

(** The data of the script: the two cities with their rents (line 19),
    their distances to the seven destinations (lines 28 to 34) and the sums
    of line 45 and line 46. *)
Definition dados : list Entrada :=
  [{| Cidade := "Recife";
      Custo_m2_Aluguel := 18.50;
      Distancias := [503; 257; 120; 290; 754; 1138; 1586]%float;
      Potencial_PIB_Vizinhos :=
        (17.7 + 6.2 + 6.8 + 15.4 + 5.5)%float |};
   {| Cidade := "Salvador";
      Custo_m2_Aluguel := 21.00;
      Distancias := [321; 580; 933; 1101; 1200; 1145; 1577]%float;
      Potencial_PIB_Vizinhos :=
        (29.0 + 4.1 + 5.5 + 17.7)%float |}].

End B64.

(** ** Output and charts (section 3 of the script) *)

(** Modelled from the spec: plotly is an external charting collaborator
    (section 6) whose failures are surfaced as they are (section 7).  The
    calls into plotly, in the order the script makes them. *)
Inductive chamada : Type :=
  | px_bar
  | fig_bar_show
  | go_Figure
  | go_Scattergeo
  | add_trace
  | update_layout
  | fig_map_show.

(** What a run does to the outside: lines and tables written to standard
    output, and calls into the charting library. *)
Inductive evento : Type :=
  | Print (texto : string)
  | PrintTabela (tabela : list (string * Q * Q * Q * Q))
  | Plotly (c : chamada).

Definition e_plotly (e : evento) : bool :=
  match e with
  | Plotly _ => true
  | _ => false
  end.

(** The charting library is outside the program: the environment tells
    whether the call number [k] into it (counted from 0) raises. *)
Definition Ambiente : Type := nat → bool.

(** A program reads the environment, appends to the log of events and
    either returns or raises. *)
Definition Prog (A : Type) : Type :=
  Ambiente → list evento → list evento * resultado A.

#[global] Instance Prog_ret : MRet Prog := λ A a _ log, (log, Ok a).
#[global] Instance Prog_bind : MBind Prog := λ A B f m falha log,
  match m falha log with
  | (log', Ok a) => f a falha log'
  | (log', Raise e) => (log', Raise e)
  end.

Definition elevar {A : Type} (r : resultado A) : Prog A :=
  λ _ log, (log, r).

Definition print (texto : string) : Prog unit :=
  λ _ log, (log ++ [Print texto], Ok ()).

Definition print_tabela (tabela : list (string * Q * Q * Q * Q)) : Prog unit :=
  λ _ log, (log ++ [PrintTabela tabela], Ok ()).

Definition chamar (c : chamada) : Prog unit :=
  λ falha log,
    (log ++ [Plotly c],
     if falha (length (filter e_plotly log)) then Raise PlotlyError else Ok ()).

Fixpoint para_cada {A : Type} (l : list A) (corpo : A → Prog unit) : Prog unit :=
  match l with
  | [] => mret ()
  | x :: resto => corpo x ;; para_cada resto corpo
  end.

(** [df_analise[['Cidade', 'Custo_m2_Aluguel', 'Tempo_Medio_Entrega',
    'Potencial_PIB_Vizinhos', 'Pontuacao_Final']].round(2)]. *)
Definition tabela_final (df : Analise) : list (string * Q * Q * Q * Q) :=
  (λ r, (Cidade r, round2 (Custo_m2_Aluguel r), round2 (Tempo_Medio_Entrega r),
         round2 (Potencial_PIB_Vizinhos r), round2 (Pontuacao_Final r)))
    <$> linhas df.

Definition nova_linha : string := String (Ascii.ascii_of_nat 10) "".

(** The six [print] calls of section 3.1. *)
Definition imprimir_resultados (df : Analise) (vencedora : Linha) : Prog unit :=
  print "--- Análise de Localização Estratégica para Novo CD Magalu ---" ;;
  print (nova_linha +:+ "Dataframe de Análise Final:") ;;
  print_tabela (tabela_final df) ;;
  print (nova_linha +:+ "--- Conclusão ---") ;;
  print ("A cidade com a localização mais estratégica é: " +:+ Cidade vencedora) ;;
  print ("Pontuação Final: " +:+ fmt2 (Pontuacao_Final vencedora)).

Definition coords : gmap string (Q * Q) :=
  list_to_map
    [("Recife", (-8.0476, -34.8770)); ("Salvador", (-12.9777, -38.5016));
     ("Aracaju", (-10.9167, -37.05)); ("Maceió", (-9.6658, -35.7353));
     ("João Pessoa", (-7.1195, -34.8451)); ("Natal", (-5.7833, -35.2));
     ("Fortaleza", (-3.7167, -38.5167)); ("Teresina", (-5.0833, -42.8));
     ("São Luís", (-2.5333, -44.3))].

(** [coords[nome]]. *)
Definition coords_getitem (nome : string) : resultado (Q * Q) :=
  match coords !! nome with
  | Some c => Ok c
  | None => Raise KeyError
  end.

(** Section 3.2: the bar chart, then the map. *)
Definition desenhar_graficos (capitais : list string) : Prog unit :=
  chamar px_bar ;;
  chamar fig_bar_show ;;
  chamar go_Figure ;;
  elevar (coords_getitem "Recife") ;;
  elevar (coords_getitem "Salvador") ;;
  chamar go_Scattergeo ;;
  chamar add_trace ;;
  para_cada capitais (λ capital,
    elevar (coords_getitem capital) ;;
    chamar go_Scattergeo ;;
    chamar add_trace) ;;
  para_cada capitais (λ capital,
    elevar (coords_getitem "Recife") ;;
    elevar (coords_getitem capital) ;;
    chamar go_Scattergeo ;;
    chamar add_trace) ;;
  chamar update_layout ;;
  chamar fig_map_show.

(** The body of [analisar_localizacao_cd], for given data. *)
Definition executar (d : Dados) : Prog unit :=
  df ← elevar (df_analise d);
  vencedora ← elevar (cidade_vencedora df);
  imprimir_resultados df vencedora ;;
  desenhar_graficos (capitais_ne d).

Definition analisar_localizacao_cd : Prog unit := executar dados.

(** What a run wrote to standard output. *)
Definition saida_console (log : list evento) : list evento :=
  filter (λ e, e_plotly e = false) log.

(** ** Vocabulary of the properties *)

(** The number a float column element stands for. *)
Definition valor (x : float) : Q :=
  match x with
  | Finito q => q
  | Infinito => 0
  end.

(** The three metrics that are normalized, read off a row. *)
Definition metrica_custo (r : Linha) : Q := valor (Inverso_Custo r).
Definition metrica_logistica (r : Linha) : Q := valor (Inverso_Tempo_Medio r).
Definition metrica_consumo (r : Linha) : Q := Potencial_PIB_Vizinhos r.



(** All cities have the same value of the metric. *)
Definition metrica_constante (df : Analise) (metrica : Linha → Q) : Prop :=
  ∀ ra rb, ra ∈ linhas df → rb ∈ linhas df → metrica ra == metrica rb.

(** [k] is the position of the first occurrence of the maximum of [s]. *)
Definition primeiro_maximo (s : list Q) (k : nat) : Prop :=
  ∃ v, s !! k = Some v
    ∧ (∀ j x, s !! j = Some x → x <= v)
    ∧ (∀ j x, (j < k)%nat → s !! j = Some x → x < v).

(** The lines of section 3.1, as the events they leave in the log. *)
Definition resultados_impressos (df : Analise) (vencedora : Linha) : list evento :=
  [Print "--- Análise de Localização Estratégica para Novo CD Magalu ---";
   Print (nova_linha +:+ "Dataframe de Análise Final:");
   PrintTabela (tabela_final df);
   Print (nova_linha +:+ "--- Conclusão ---");
   Print ("A cidade com a localização mais estratégica é: " +:+ Cidade vencedora);
   Print ("Pontuação Final: " +:+ fmt2 (Pontuacao_Final vencedora))].


(** The same data with other weights. *)
Definition com_pesos (p : Pesos) (d : Dados) : Dados :=
  {| custos_imobiliarios := custos_imobiliarios d;
     capitais_ne := capitais_ne d;
     distancias := distancias d;
     potencial_consumo := potencial_consumo d;
     pesos := p |}.




(** ** Invariants used in the proofs *)

(** What the three normalized columns have in common: the score of a row is
    the transform, fitted on the whole column of metric values, of the row's
    own metric value. *)
Definition coluna_normalizada (df : Analise) (metrica score : Linha → Q)
    (col : list Q) : Prop :=
  col ≠ []
  ∧ (∀ r, r ∈ linhas df →
       metrica r ∈ col ∧ score r = metrica r * scale_ (fit col) + min_ (fit col))
  ∧ (∀ x, x ∈ col → ∃ r, r ∈ linhas df ∧ metrica r = x).

(** A program that, whatever the environment does, only adds calls into the
    charting library to the log. *)
Definition apenas_plotly {A : Type} (p : Prog A) : Prop :=
  ∀ falha log, ∃ evs,
    (p falha log).1 = log ++ evs ∧ Forall (λ e, e_plotly e = true) evs.

(** ** Runs used as examples *)

Definition analise_vazia : Analise :=
  {| col_Cidade := []; col_Custo_m2_Aluguel := []; col_Tempo_Medio_Entrega := [];
     col_Potencial_PIB_Vizinhos := []; col_Inverso_Custo := [];
     col_Inverso_Tempo_Medio := []; col_Score_Custo := [];
     col_Score_Logistica := []; col_Score_Consumo := [];
     col_Pontuacao_Final := [] |}.

Definition linha_vazia : Linha :=
  {| Cidade := ""; Custo_m2_Aluguel := 0; Tempo_Medio_Entrega := 0;
     Potencial_PIB_Vizinhos := 0; Inverso_Custo := Infinito;
     Inverso_Tempo_Medio := Infinito; Score_Custo := 0; Score_Logistica := 0;
     Score_Consumo := 0; Pontuacao_Final := 0 |}.

Definition analise_de (d : Dados) : Analise :=
  match df_analise d with
  | Ok df => df
  | Raise _ => analise_vazia
  end.

(** The run of the script. *)
Definition df_referencia : Analise := Eval vm_compute in analise_de dados.
Definition linha_recife : Linha :=
  Eval vm_compute in default linha_vazia (linha df_referencia 0).
Definition linha_salvador : Linha :=
  Eval vm_compute in default linha_vazia (linha df_referencia 1).

(** The data of the script with weights that sum to 1.5. *)
Definition pesos_invalidos : Pesos :=
  {| Custo := 0.5; Logistica := 0.5; Consumo := 0.5 |}.
Definition dados_pesos_invalidos : Dados := com_pesos pesos_invalidos dados.


(** Two cities with the same values on every criterion. *)
Definition dados_empate : Dados := {|
  custos_imobiliarios := (["Recife"; "Salvador"], [18.50; 18.50]);
  capitais_ne := ["Aracaju"; "Maceió"];
  distancias :=
    (["Recife"; "Salvador"],
     list_to_map [("Aracaju", [503; 503]); ("Maceió", [257; 257])]);
  potencial_consumo := (["Recife"; "Salvador"], [51.6; 51.6]);
  pesos := pesos dados
|}.
Definition df_empate : Analise := Eval vm_compute in analise_de dados_empate.

(** One city and the two destinations of the check of section 8 of the
    specification; the same with the destination list naming one
    destination twice. *)
Definition dados_dois_destinos : Dados := {|
  custos_imobiliarios := (["Recife"], [18.50]);
  capitais_ne := ["Aracaju"; "Maceió"];
  distancias := (["Recife"], list_to_map [("Aracaju", [60]); ("Maceió", [120])]);
  potencial_consumo := (["Recife"], [51.6]);
  pesos := pesos dados
|}.

Definition dados_destino_repetido : Dados := {|
  custos_imobiliarios := (["Recife"], [18.50]);
  capitais_ne := ["Aracaju"; "Aracaju"];
  distancias := (["Recife"], list_to_map [("Aracaju", [60])]);
  potencial_consumo := (["Recife"], [51.6]);
  pesos := pesos dados
|}.

(** Three cities, the first with a negative rent: it is better than the
    second on all three criteria. *)
Definition dados_custo_negativo : Dados := {|
  custos_imobiliarios := (["A"; "B"; "C"], [-1; 1; 2]);
  capitais_ne := ["Aracaju"];
  distancias := (["A"; "B"; "C"], list_to_map [("Aracaju", [60; 120; 6])]);
  potencial_consumo := (["A"; "B"; "C"], [3; 2; 100]);
  pesos := pesos dados
|}.

(** The environment in which no chart call fails, and the one in which
    [fig_bar.show()] does. *)
Definition sem_falhas : Ambiente := λ _, false.
Definition falha_em_fig_bar_show : Ambiente := λ k, Nat.eqb k 1.

(** ** Binary64 runs used as examples *)




(** The binary64 run on the data of the script. *)
Definition b64_df_referencia : B64.Analise :=
  Eval vm_compute in
    match B64.df_analise B64.pesos B64.dados with
    | Ok df => df
    | Raise _ =>
        {| B64.col_Custo_m2_Aluguel := []; B64.col_Tempo_Medio_Entrega := [];
           B64.col_Potencial_PIB_Vizinhos := []; B64.col_Inverso_Custo := [];
           B64.col_Inverso_Tempo_Medio := []; B64.col_Score_Custo := [];
           B64.col_Score_Logistica := []; B64.col_Score_Consumo := [];
           B64.col_Pontuacao_Final := [] |}
    end.

(** ** Vocabulary of the further properties *)

(** The calls of section 3.2 for given destinations, in the order of the
    script: the bar chart, the figure with the two candidate cities, one
    marker per destination, one route per destination, the layout and the
    map. *)
Definition chamadas_dos_graficos (capitais : list string) : list chamada :=
  [px_bar; fig_bar_show; go_Figure; go_Scattergeo; add_trace]
  ++ (capitais ≫= λ _, [go_Scattergeo; add_trace])
  ++ (capitais ≫= λ _, [go_Scattergeo; add_trace])
  ++ [update_layout; fig_map_show].

(** A program that makes exactly the calls [cs], one after the other, and
    stops at the first that raises. *)
Definition faz_as_chamadas (p : Prog unit) (cs : list chamada) : Prop :=
  ∀ falha log, p falha log = para_cada cs chamar falha log.

(** The number of calls into the charting library in a log. *)
Definition numero_de_chamadas (log : list evento) : nat :=
  length (filter e_plotly log).

(** A program that always raises, having added to the log only events that
    satisfy [P]; a program that adds only such events. *)
Definition levanta_com (P : evento → Prop) {A : Type} (p : Prog A) : Prop :=
  ∀ falha log, ∃ evs e, p falha log = (log ++ evs, Raise e) ∧ Forall P evs.

Definition so_eventos (P : evento → Prop) {A : Type} (p : Prog A) : Prop :=
  ∀ falha log, ∃ evs r, p falha log = (log ++ evs, r) ∧ Forall P evs.

(** The events of the run before the layout of the map is set. *)
Definition antes_do_mapa (e : evento) : Prop :=
  e ≠ Plotly update_layout ∧ e ≠ Plotly fig_map_show.

(** The data of the script with a destination that has a column of
    distances and no coordinates. *)
Definition dados_destino_sem_coordenadas : Dados := {|
  custos_imobiliarios := custos_imobiliarios dados;
  capitais_ne := ["Aracaju"; "Palmas"; "Natal"];
  distancias :=
    (["Recife"; "Salvador"],
     list_to_map
       [("Aracaju", [503; 321]); ("Palmas", [1500; 1450]);
        ("Natal", [290; 1101])]);
  potencial_consumo := potencial_consumo dados;
  pesos := pesos dados
|}.
Definition df_destino_sem_coordenadas : Analise :=
  Eval vm_compute in analise_de dados_destino_sem_coordenadas.

(** ** Further runs used as examples *)

(** The data of the script with a rent for a city that has no distances and
    no economic output. *)
Definition dados_cidade_a_mais : Dados := {|
  custos_imobiliarios := (["Recife"; "Fortaleza"; "Salvador"], [18.50; 19.00; 21.00]);
  capitais_ne := capitais_ne dados;
  distancias := distancias dados;
  potencial_consumo := potencial_consumo dados;
  pesos := pesos dados
|}.
Definition df_cidade_a_mais : Analise :=
  Eval vm_compute in analise_de dados_cidade_a_mais.

(** Rents for a city that is not in the other dicts. *)
Definition dados_sem_cidade_em_comum : Dados := {|
  custos_imobiliarios := (["Natal"], [15.00]);
  capitais_ne := capitais_ne dados;
  distancias := distancias dados;
  potencial_consumo := potencial_consumo dados;
  pesos := pesos dados
|}.

(** The data of the script with a rent of zero for Recife. *)
Definition dados_custo_zero : Dados := {|
  custos_imobiliarios := (["Recife"; "Salvador"], [0; 21.00]);
  capitais_ne := capitais_ne dados;
  distancias := distancias dados;
  potencial_consumo := potencial_consumo dados;
  pesos := pesos dados
|}.

(** The data of the script with a destination that has no column of
    distances. *)
Definition dados_destino_sem_distancias : Dados := {|
  custos_imobiliarios := custos_imobiliarios dados;
  capitais_ne := ["Aracaju"; "Palmas"];
  distancias := distancias dados;
  potencial_consumo := potencial_consumo dados;
  pesos := pesos dados
|}.

(** The data of the script with three rents for two cities. *)
Definition dados_irregulares : Dados := {|
  custos_imobiliarios := (["Recife"; "Salvador"], [18.50; 21.00; 19.00]);
  capitais_ne := capitais_ne dados;
  distancias := distancias dados;
  potencial_consumo := potencial_consumo dados;
  pesos := pesos dados
|}.


(** The data of the script with a third city that is worse than Recife and
    Salvador on the three criteria: a higher rent, longer distances to every
    destination and a lower economic output. *)
Definition dados_com_terceira_cidade : Dados := {|
  custos_imobiliarios := (["Recife"; "Salvador"; "Petrolina"], [18.50; 21.00; 1000]);
  capitais_ne := capitais_ne dados;
  distancias :=
    (["Recife"; "Salvador"; "Petrolina"],
     list_to_map
       [("Aracaju", [503; 321; 100000]);
        ("Maceió", [257; 580; 100000]);
        ("João Pessoa", [120; 933; 100000]);
        ("Natal", [290; 1101; 100000]);
        ("Fortaleza", [754; 1200; 100000]);
        ("Teresina", [1138; 1145; 100000]);
        ("São Luís", [1586; 1577; 100000])]);
  potencial_consumo := (["Recife"; "Salvador"; "Petrolina"], [51.6; 56.3; 51.5]);
  pesos := pesos dados
|}.
Definition df_com_terceira_cidade : Analise :=
  Eval vm_compute in analise_de dados_com_terceira_cidade.

(** * Properties *)

(** ** The result monad *)

Lemma bind_Ok {A B : Type} (m : resultado A) (f : A → resultado B) (b : B) :
  m ≫= f = Ok b → ∃ a, m = Ok a ∧ f a = Ok b.
Proof. destruct m as [a|e]; [eauto | discriminate]. Qed.

Ltac inv_bind H :=
  let a := fresh "a" in
  let Ha := fresh "H" a in
  apply bind_Ok in H as (a & Ha & H).

Lemma mapM_Ok {A B : Type} (f : A → resultado B) (l : list A) (k : list B) :
  mapM f l = Ok k → Forall2 (λ x y, f x = Ok y) l k.
Proof.
  revert k. induction l as [|x l IH]; intros k H; simpl in H.
  - injection H as <-. constructor.
  - inv_bind H. inv_bind H. injection H as <-. constructor; auto.
Qed.

Lemma mapM_finito (c : list float) (q : list Q) :
  mapM finito c = Ok q → c = Finito <$> q.
Proof.
  intros H%mapM_Ok. induction H as [|x y c q Hxy _ IH]; [done|].
  destruct x; [|discriminate]. injection Hxy as ->. by rewrite IH.
Qed.

Lemma recip_finito (l q : list Q) :
  recip <$> l = Finito <$> q →
  q = (λ x, 1 / x) <$> l ∧ Forall (λ x, ¬ x == 0) l.
Proof.
  revert q. induction l as [|x l IH]; intros [|y q] H; try discriminate.
  - by split.
  - injection H as Hx Hl. destruct (IH _ Hl) as [-> HF].
    unfold recip in Hx. destruct (Qeq_bool x 0) eqn:E; [discriminate|].
    injection Hx as <-. split; [done|]. constructor; [|done].
    by apply Qeq_bool_neq.
Qed.

#[global] Instance Finito_inj : Inj (=) (=) Finito.
Proof. by intros x y [= ->]. Qed.

Lemma check_array_3 (c1 c2 c3 : list float) (Xq : list (list Q)) :
  check_array [c1; c2; c3] = Ok Xq →
  ∃ q1 q2 q3, Xq = [q1; q2; q3] ∧ c1 = Finito <$> q1 ∧ c2 = Finito <$> q2
    ∧ c3 = Finito <$> q3 ∧ q1 ≠ [] ∧ q2 ≠ [] ∧ q3 ≠ [].
Proof.
  unfold check_array. intros H. inv_bind H.
  case_decide as HF; [|discriminate]. injection H as <-.
  apply mapM_Ok in Ha.
  inversion Ha as [|? q1 ? ? H1 Ha1]; subst.
  inversion Ha1 as [|? q2 ? ? H2 Ha2]; subst.
  inversion Ha2 as [|? q3 ? ? H3 Ha3]; subst.
  inversion Ha3; subst.
  apply mapM_finito in H1, H2, H3.
  inversion HF as [|? ? ? HF1]; subst. inversion HF1 as [|? ? ? HF2]; subst.
  inversion HF2; subst.
  exists q1, q2, q3. done.
Qed.

(** ** Rows of [df_analise] *)

Lemma linha_campos (df : Analise) (i : nat) (r : Linha) :
  linha df i = Some r →
  col_Cidade df !! i = Some (Cidade r)
  ∧ col_Custo_m2_Aluguel df !! i = Some (Custo_m2_Aluguel r)
  ∧ col_Tempo_Medio_Entrega df !! i = Some (Tempo_Medio_Entrega r)
  ∧ col_Potencial_PIB_Vizinhos df !! i = Some (Potencial_PIB_Vizinhos r)
  ∧ col_Inverso_Custo df !! i = Some (Inverso_Custo r)
  ∧ col_Inverso_Tempo_Medio df !! i = Some (Inverso_Tempo_Medio r)
  ∧ col_Score_Custo df !! i = Some (Score_Custo r)
  ∧ col_Score_Logistica df !! i = Some (Score_Logistica r)
  ∧ col_Score_Consumo df !! i = Some (Score_Consumo r)
  ∧ col_Pontuacao_Final df !! i = Some (Pontuacao_Final r).
Proof.
  unfold linha. intros H.
  repeat (apply bind_Some in H as (? & ? & H)).
  injection H as <-. simpl. done.
Qed.

Lemma linhas_lookup (df : Analise) (r : Linha) :
  r ∈ linhas df ↔ ∃ i, linha df i = Some r.
Proof.
  unfold linhas. rewrite list_elem_of_omap. split.
  - intros (i & _ & H). eauto.
  - intros (i & H). exists i. split; [|done].
    apply elem_of_seq. split; [lia|]. simpl.
    apply linha_campos in H as (H & _). by apply lookup_lt_Some in H.
Qed.

(** ** The frame [df_analise] of a successful analysis *)

Section Analise_Ok.
Variables (d : Dados) (df : Analise).
Hypothesis Hdf : df_analise d = Ok df.

Lemma df_analise_colunas :
  let ic := (λ x, 1 / x) <$> col_Custo_m2_Aluguel df in
  let it := (λ x, 1 / x) <$> col_Tempo_Medio_Entrega df in
  let pc := col_Potencial_PIB_Vizinhos df in
  col_Cidade df ≠ []
  ∧ length (col_Custo_m2_Aluguel df) = length (col_Cidade df)
  ∧ length (col_Tempo_Medio_Entrega df) = length (col_Cidade df)
  ∧ length (col_Potencial_PIB_Vizinhos df) = length (col_Cidade df)
  ∧ Forall (λ x, ¬ x == 0) (col_Custo_m2_Aluguel df)
  ∧ Forall (λ x, ¬ x == 0) (col_Tempo_Medio_Entrega df)
  ∧ col_Inverso_Custo df = Finito <$> ic
  ∧ col_Inverso_Tempo_Medio df = Finito <$> it
  ∧ col_Score_Custo df = transform (fit ic) ic
  ∧ col_Score_Logistica df = transform (fit it) it
  ∧ col_Score_Consumo df = transform (fit pc) pc
  ∧ col_Pontuacao_Final df =
      zip_with Qplus
        (zip_with Qplus
           ((λ s, s * Custo (pesos d)) <$> col_Score_Custo df)
           ((λ s, s * Logistica (pesos d)) <$> col_Score_Logistica df))
        ((λ s, s * Consumo (pesos d)) <$> col_Score_Consumo df).
Proof.
  revert Hdf. unfold df_analise. intros H.
  inv_bind H. inv_bind H. inv_bind H.
  set (unido := merge (merge a a0) a1) in *.
  inv_bind H. unfold fit_transform in Ha2. inv_bind Ha2.
  apply check_array_3 in Ha3 as (q1 & q2 & q3 & -> & H1 & H2 & H3 & N1 & N2 & N3).
  injection Ha2 as <-. simpl in H. injection H as <-. simpl.
  destruct (recip_finito _ _ H1) as [-> F1].
  destruct (recip_finito _ _ H2) as [-> F2].
  apply (inj (fmap Finito)) in H3 as <-.
  rewrite !length_fmap.
  split_and!; try done.
  intros E. apply N1. by rewrite (fmap_nil_inv _ _ E).
Qed.

Lemma comprimento_pontuacao :
  length (col_Pontuacao_Final df) = length (col_Cidade df).
Proof.
  destruct df_analise_colunas
    as (_ & L1 & L2 & L3 & _ & _ & _ & _ & E3 & E4 & E5 & E6).
  rewrite E6, E3, E4, E5. unfold transform.
  rewrite !length_zip_with, !length_fmap. lia.
Qed.

Lemma linha_existe (i : nat) :
  (i < length (col_Cidade df))%nat → ∃ r, linha df i = Some r.
Proof.
  intros Hi. pose proof comprimento_pontuacao as L9.
  destruct df_analise_colunas
    as (_ & L1 & L2 & L3 & _ & _ & E1 & E2 & E3 & E4 & E5 & _).
  assert (∀ {A} (l : list A), length l = length (col_Cidade df) → is_Some (l !! i))
    as HS by (intros A l Hl; apply lookup_lt_is_Some; lia).
  unfold linha.
  destruct (HS _ (col_Cidade df) eq_refl) as [? ->].
  destruct (HS _ _ L1) as [? ->]. destruct (HS _ _ L2) as [? ->].
  destruct (HS _ _ L3) as [? ->].
  assert (length (col_Inverso_Custo df) = length (col_Cidade df)) as L4
    by (by rewrite E1, !length_fmap).
  assert (length (col_Inverso_Tempo_Medio df) = length (col_Cidade df)) as L5
    by (by rewrite E2, !length_fmap).
  assert (length (col_Score_Custo df) = length (col_Cidade df)) as L6
    by (rewrite E3; unfold transform; by rewrite !length_fmap).
  assert (length (col_Score_Logistica df) = length (col_Cidade df)) as L7
    by (rewrite E4; unfold transform; by rewrite !length_fmap).
  assert (length (col_Score_Consumo df) = length (col_Cidade df)) as L8
    by (rewrite E5; unfold transform; by rewrite !length_fmap).
  destruct (HS _ _ L4) as [? ->]. destruct (HS _ _ L5) as [? ->].
  destruct (HS _ _ L6) as [? ->]. destruct (HS _ _ L7) as [? ->].
  destruct (HS _ _ L8) as [? ->]. destruct (HS _ _ L9) as [? ->].
  simpl. eauto.
Qed.

(** The values of one row, in terms of the fitted scalers. *)
Lemma linha_valores (i : nat) (r : Linha) :
  linha df i = Some r →
  let ic := (λ x, 1 / x) <$> col_Custo_m2_Aluguel df in
  let it := (λ x, 1 / x) <$> col_Tempo_Medio_Entrega df in
  let pc := col_Potencial_PIB_Vizinhos df in
  ¬ Custo_m2_Aluguel r == 0
  ∧ ¬ Tempo_Medio_Entrega r == 0
  ∧ Inverso_Custo r = Finito (1 / Custo_m2_Aluguel r)
  ∧ Inverso_Tempo_Medio r = Finito (1 / Tempo_Medio_Entrega r)
  ∧ ic !! i = Some (1 / Custo_m2_Aluguel r)
  ∧ it !! i = Some (1 / Tempo_Medio_Entrega r)
  ∧ pc !! i = Some (Potencial_PIB_Vizinhos r)
  ∧ Score_Custo r = 1 / Custo_m2_Aluguel r * scale_ (fit ic) + min_ (fit ic)
  ∧ Score_Logistica r = 1 / Tempo_Medio_Entrega r * scale_ (fit it) + min_ (fit it)
  ∧ Score_Consumo r = Potencial_PIB_Vizinhos r * scale_ (fit pc) + min_ (fit pc)
  ∧ Pontuacao_Final r =
      Score_Custo r * Custo (pesos d) + Score_Logistica r * Logistica (pesos d)
      + Score_Consumo r * Consumo (pesos d).
Proof.
  intros Hr ic it pc.
  destruct df_analise_colunas
    as (_ & _ & _ & _ & F1 & F2 & E1 & E2 & E3 & E4 & E5 & E6).
  fold ic it pc in E1, E2, E3, E4, E5.
  apply linha_campos in Hr
    as (_ & H1 & H2 & H3 & H4 & H5 & H6 & H7 & H8 & H9).
  assert (ic !! i = Some (1 / Custo_m2_Aluguel r)) as Hic
    by (unfold ic; by rewrite list_lookup_fmap, H1).
  assert (it !! i = Some (1 / Tempo_Medio_Entrega r)) as Hit
    by (unfold it; by rewrite list_lookup_fmap, H2).
  rewrite E1, list_lookup_fmap, Hic in H4. injection H4 as H4.
  rewrite E2, list_lookup_fmap, Hit in H5. injection H5 as H5.
  rewrite E6 in H9.
  rewrite !lookup_zip_with, !list_lookup_fmap, H6, H7, H8 in H9.
  injection H9 as H9.
  unfold transform in E3, E4, E5.
  rewrite E3, list_lookup_fmap, Hic in H6. injection H6 as H6.
  rewrite E4, list_lookup_fmap, Hit in H7. injection H7 as H7.
  rewrite E5, list_lookup_fmap in H8. fold pc in H3. rewrite H3 in H8.
  injection H8 as H8.
  split_and!; try done.
  - eapply (Forall_lookup_1 _ _ _ _ F1), H1.
  - eapply (Forall_lookup_1 _ _ _ _ F2), H2.
Qed.

End Analise_Ok.

Lemma mean_axis1_Ok (n : nat) (cols : list (list Q)) (T : list Q) :
  mean_axis1 n cols = Ok T →
  cols ≠ []
  ∧ T = (λ i, media ((λ col, default 0 (col !! i)) <$> cols)) <$> seq 0 n.
Proof. destruct cols; [discriminate|]. intros [= <-]. done. Qed.

(** ** Rows in the order of the input *)

Lemma merge_cons_l {A B : Type} (k : string) (a : A) (left : list (string * A))
    (right : list (string * B)) :
  merge ((k, a) :: left) right =
  (right ≫= λ '(k', b), if decide (k = k') then [(k, (a, b))] else [])
  ++ merge left right.
Proof. done. Qed.

Lemma merge_chave_ausente {A B : Type} (k : string) (a : A)
    (right : list (string * B)) :
  k ∉ right.*1 →
  (right ≫= λ '(k', b), if decide (k = k') then [(k, (a, b))] else []) = [].
Proof.
  induction right as [|[k' b] right IH]; [done|].
  intros [Hne Hk]%not_elem_of_cons. rewrite bind_cons, IH by done.
  simpl in Hne. by rewrite decide_False.
Qed.

Lemma merge_cons_r_ausente {A B : Type} (k : string) (b : B)
    (left : list (string * A)) (right : list (string * B)) :
  k ∉ left.*1 → merge left ((k, b) :: right) = merge left right.
Proof.
  induction left as [|[k' a] left IH]; [done|].
  intros [Hne Hk]%not_elem_of_cons. rewrite !merge_cons_l, IH by done.
  rewrite bind_cons. simpl in Hne. by rewrite decide_False.
Qed.

(** Two frames that list the same cities, each once, are joined row by
    row. *)
Lemma merge_mesmas_chaves {A B : Type} (ks : list string) (xs : list A)
    (ys : list B) :
  NoDup ks → length xs = length ks → length ys = length ks →
  merge (zip ks xs) (zip ks ys) = zip ks (zip xs ys).
Proof.
  intros ND. revert xs ys.
  induction ND as [|k ks Hk ND IH]; intros [|x xs] [|y ys] Hx Hy; try done.
  simpl in Hx, Hy. simpl zip.
  rewrite merge_cons_l, bind_cons, decide_True by done.
  rewrite merge_chave_ausente, merge_cons_r_ausente.
  - simpl. f_equal. apply IH; lia.
  - rewrite fst_zip by lia. done.
  - rewrite fst_zip by lia. done.
Qed.

Lemma pd_DataFrame2_Ok (cidades : list string) (coluna : list Q)
    (df : list (string * Q)) :
  pd_DataFrame2 cidades coluna = Ok df →
  df = zip cidades coluna ∧ length coluna = length cidades.
Proof. unfold pd_DataFrame2. case_decide; [|discriminate]. by intros [= <-]. Qed.

Lemma df_tempos_forma (d : Dados) (tempos : list (string * Q)) :
  df_tempos d = Ok tempos →
  ∃ T, tempos = zip (distancias d).1 T ∧ length T = length (distancias d).1.
Proof.
  intros Hd. unfold df_tempos in Hd.
  inv_bind Hd. inv_bind Hd. inv_bind Hd. inv_bind Hd. injection Hd as <-.
  unfold pd_DataFrame in Ha. case_decide; [|discriminate]. injection Ha as <-.
  cbn [df_Cidade df_colunas] in *.
  apply mean_axis1_Ok in Ha2 as [_ ->]. eexists. split; [done|].
  by rewrite length_fmap, length_seq.
Qed.

(** When the three input dicts list the same cities, each once, the rows of
    [df_analise] are the cities in the order of the input, with their own
    rent and economic output. *)
Lemma linhas_na_ordem_de_entrada (d : Dados) (df : Analise) (ks : list string) :
  df_analise d = Ok df → NoDup ks →
  (custos_imobiliarios d).1 = ks → (distancias d).1 = ks →
  (potencial_consumo d).1 = ks →
  col_Cidade df = ks
  ∧ col_Custo_m2_Aluguel df = (custos_imobiliarios d).2
  ∧ col_Potencial_PIB_Vizinhos df = (potencial_consumo d).2
  ∧ df_tempos d = Ok (zip ks (col_Tempo_Medio_Entrega df)).
Proof.
  intros H ND E1 E2 E3. unfold df_analise in H.
  inv_bind H. inv_bind H. inv_bind H.
  apply pd_DataFrame2_Ok in Ha as [-> L1], Ha1 as [-> L3].
  destruct (df_tempos_forma _ _ Ha0) as (T & -> & L2).
  rewrite E1, E2, E3 in *.
  rewrite !merge_mesmas_chaves in H by (try done; rewrite ?length_zip; lia).
  inv_bind H. destruct a as [|s1 [|s2 [|s3 [|s4 a]]]]; try discriminate.
  injection H as <-. cbn [col_Cidade col_Custo_m2_Aluguel
    col_Potencial_PIB_Vizinhos col_Tempo_Medio_Entrega].
  change (λ r : string * (Q * Q * Q), r.1) with (@fst string (Q * Q * Q)).
  change (λ r : string * (Q * Q * Q), r.2.1.1)
    with (@fst Q Q ∘ @fst (Q * Q) Q ∘ @snd string (Q * Q * Q)).
  change (λ r : string * (Q * Q * Q), r.2.1.2)
    with (@snd Q Q ∘ @fst (Q * Q) Q ∘ @snd string (Q * Q * Q)).
  change (λ r : string * (Q * Q * Q), r.2.2)
    with (@snd (Q * Q) Q ∘ @snd string (Q * Q * Q)).
  rewrite !list_fmap_compose.
  rewrite fst_zip, !snd_zip, !fst_zip, !snd_zip by (rewrite ?length_zip; lia).
  done.
Qed.

(** ** Average delivery time *)

Lemma getitem_Ok (cols : gmap string (list Q)) (nome : string) (col : list Q) :
  getitem cols nome = Ok col → cols !! nome = Some col.
Proof.
  unfold getitem. case_decide; [discriminate|].
  destruct (cols !! nome); [congruence|discriminate].
Qed.

(** The loop divides the column of each destination once, and leaves the
    other columns alone, when no destination is named twice. *)
Lemma converter_em_horas_spec (capitais : list string)
    (cols horas : gmap string (list Q)) :
  NoDup capitais → converter_em_horas capitais cols = Ok horas →
  (∀ c, c ∈ capitais →
     ∃ col, cols !! c = Some col ∧ horas !! c = Some ((λ x, x / 60) <$> col))
  ∧ (∀ c, c ∉ capitais → horas !! c = cols !! c).
Proof.
  revert cols. induction capitais as [|capital resto IH]; intros cols ND H.
  - simpl in H. injection H as <-. split; [|done].
    intros c Hc. by apply elem_of_nil in Hc.
  - simpl in H. inv_bind H. apply getitem_Ok in Ha.
    apply NoDup_cons in ND as [Hnotin ND].
    destruct (IH _ ND H) as [IH1 IH2]. split.
    + intros c [->|Hc]%elem_of_cons.
      * exists a. split; [done|].
        rewrite (IH2 _ Hnotin). apply lookup_insert_eq.
      * destruct (IH1 c Hc) as (col & Hcol & Hh).
        assert (capital ≠ c) as Hne by (intros ->; done).
        rewrite lookup_insert_ne in Hcol by done. eauto.
    + intros c Hc. apply not_elem_of_cons in Hc as [Hne Hc].
      rewrite (IH2 c Hc). by apply lookup_insert_ne.
Qed.

Lemma distancias_da_linha (cols horas : gmap string (list Q)) (n i : nat)
    (capitais : list string) (colsH : list (list Q)) :
  (i < n)%nat →
  map_Forall (λ _ col, length col = n) cols →
  (∀ c, c ∈ capitais →
     ∃ col, cols !! c = Some col ∧ horas !! c = Some ((λ x, x / 60) <$> col)) →
  Forall2 (λ c colH, getitem horas c = Ok colH) capitais colsH →
  ∃ dists,
    Forall2 (λ c dist, ∃ col, cols !! c = Some col ∧ col !! i = Some dist)
      capitais dists
    ∧ (λ colH, default 0 (colH !! i)) <$> colsH = (λ x, x / 60) <$> dists.
Proof.
  intros Hi HF Hc H2. induction H2 as [|c colH capitais colsH Hg _ IH].
  - exists []. split; [constructor|done].
  - destruct IH as (dists & Hd & E).
    { intros c' Hc'. apply Hc. by right. }
    destruct (Hc c) as (col & Hcol & Hh); [by left|].
    apply getitem_Ok in Hg. assert (colH = (λ x, x / 60) <$> col) as -> by congruence.
    destruct (lookup_lt_is_Some_2 col i) as [dist Hdist].
    { by rewrite (HF _ _ Hcol). }
    exists (dist :: dists). split.
    + constructor; [|done]. eauto.
    + rewrite !fmap_cons, E, list_lookup_fmap, Hdist. done.
Qed.

(** ** Min-max scaling of one column *)

Lemma Qmin_escolhe (x y : Q) : Qmin x y = x ∨ Qmin x y = y.
Proof. unfold Qmin, GenericMinMax.gmin. destruct (x ?= y); auto. Qed.

Lemma Qmax_escolhe (x y : Q) : Qmax x y = x ∨ Qmax x y = y.
Proof. unfold Qmax, GenericMinMax.gmax. destruct (x ?= y); auto. Qed.

Lemma foldl_Qmin_le (l : list Q) (x : Q) :
  foldl Qmin x l <= x ∧ ∀ y, y ∈ l → foldl Qmin x l <= y.
Proof.
  revert x. induction l as [|z l IH]; intros x; simpl.
  - split; [apply Qle_refl|]. intros y Hy. by apply elem_of_nil in Hy.
  - destruct (IH (Qmin x z)) as [H1 H2]. split.
    + eapply Qle_trans; [exact H1|apply Q.le_min_l].
    + intros y [->|Hy]%elem_of_cons; [|auto].
      eapply Qle_trans; [exact H1|apply Q.le_min_r].
Qed.

Lemma foldl_Qmax_ge (l : list Q) (x : Q) :
  x <= foldl Qmax x l ∧ ∀ y, y ∈ l → y <= foldl Qmax x l.
Proof.
  revert x. induction l as [|z l IH]; intros x; simpl.
  - split; [apply Qle_refl|]. intros y Hy. by apply elem_of_nil in Hy.
  - destruct (IH (Qmax x z)) as [H1 H2]. split.
    + eapply Qle_trans; [apply Q.le_max_l|exact H1].
    + intros y [->|Hy]%elem_of_cons; [|auto].
      eapply Qle_trans; [apply Q.le_max_r|exact H1].
Qed.

Lemma foldl_Qmin_elem (l : list Q) (x : Q) : foldl Qmin x l ∈ x :: l.
Proof.
  revert x. induction l as [|z l IH]; intros x; simpl; [by left|].
  specialize (IH (Qmin x z)). apply elem_of_cons in IH as [->|IH].
  - destruct (Qmin_escolhe x z) as [->| ->]; [by left|right; by left].
  - by do 2 right.
Qed.

Lemma foldl_Qmax_elem (l : list Q) (x : Q) : foldl Qmax x l ∈ x :: l.
Proof.
  revert x. induction l as [|z l IH]; intros x; simpl; [by left|].
  specialize (IH (Qmax x z)). apply elem_of_cons in IH as [->|IH].
  - destruct (Qmax_escolhe x z) as [->| ->]; [by left|right; by left].
  - by do 2 right.
Qed.

Lemma minimo_le (col : list Q) (x : Q) : x ∈ col → minimo col <= x.
Proof.
  destruct col as [|z col]; [by intros ?%elem_of_nil|]. simpl.
  destruct (foldl_Qmin_le col z) as [H1 H2].
  intros [->|Hx]%elem_of_cons; auto.
Qed.

Lemma maximo_ge (col : list Q) (x : Q) : x ∈ col → x <= maximo col.
Proof.
  destruct col as [|z col]; [by intros ?%elem_of_nil|]. simpl.
  destruct (foldl_Qmax_ge col z) as [H1 H2].
  intros [->|Hx]%elem_of_cons; auto.
Qed.

Lemma minimo_elem (col : list Q) : col ≠ [] → minimo col ∈ col.
Proof. destruct col; [done|]. intros _. apply foldl_Qmin_elem. Qed.

Lemma maximo_elem (col : list Q) : col ≠ [] → maximo col ∈ col.
Proof. destruct col; [done|]. intros _. apply foldl_Qmax_elem. Qed.




Lemma transform_degenerado (col : list Q) (x : Q) :
  maximo col == minimo col → x ∈ col →
  x * scale_ (fit col) + min_ (fit col) == 0.
Proof.
  intros H Hx. pose proof (minimo_le _ _ Hx). pose proof (maximo_ge _ _ Hx).
  simpl. unfold handle_zeros_in_scale.
  destruct (Qeq_bool (maximo col - minimo col) 0) eqn:E.
  - assert (x == minimo col) as -> by lra. field.
  - apply Qeq_bool_neq in E. lra.
Qed.

(** ** The three normalized columns *)

Lemma colunas_normalizadas (d : Dados) (df : Analise) :
  df_analise d = Ok df →
  coluna_normalizada df metrica_custo Score_Custo
    ((λ x, 1 / x) <$> col_Custo_m2_Aluguel df)
  ∧ coluna_normalizada df metrica_logistica Score_Logistica
      ((λ x, 1 / x) <$> col_Tempo_Medio_Entrega df)
  ∧ coluna_normalizada df metrica_consumo Score_Consumo
      (col_Potencial_PIB_Vizinhos df).
Proof.
  intros Hdf.
  destruct (df_analise_colunas d df Hdf) as (N & L1 & L2 & L3 & _).
  assert (∀ {A} (l : list A), length l = length (col_Cidade df) → l ≠ [])
    as HN by (intros A [|] Hl; [destruct (col_Cidade df); done|done]).
  assert (∀ {A} (l : list A) i, length l = length (col_Cidade df) →
            is_Some (l !! i) → ∃ r, linha df i = Some r) as HE.
  { intros A l i Hl Hi%lookup_lt_is_Some. apply (linha_existe d df Hdf). lia. }
  unfold coluna_normalizada, metrica_custo, metrica_logistica, metrica_consumo.
  split_and!.
  - intros E%fmap_nil_inv. by apply (HN _ _ L1).
  - intros r (i & Hr)%linhas_lookup.
    destruct (linha_valores d df Hdf i r Hr)
      as (_ & _ & -> & _ & Hi & _ & _ & -> & _).
    split; [|done]. simpl. eapply list_elem_of_lookup_2, Hi.
  - intros x (i & Hi)%list_elem_of_lookup_1.
    destruct (HE _ ((λ x, 1 / x) <$> col_Custo_m2_Aluguel df) i) as [r Hr];
      [by rewrite length_fmap|by eexists|].
    exists r. split; [apply linhas_lookup; eauto|].
    destruct (linha_valores d df Hdf i r Hr)
      as (_ & _ & -> & _ & Hi' & _). simpl. congruence.
  - intros E%fmap_nil_inv. by apply (HN _ _ L2).
  - intros r (i & Hr)%linhas_lookup.
    destruct (linha_valores d df Hdf i r Hr)
      as (_ & _ & _ & -> & _ & Hi & _ & _ & -> & _).
    split; [|done]. simpl. eapply list_elem_of_lookup_2, Hi.
  - intros x (i & Hi)%list_elem_of_lookup_1.
    destruct (HE _ ((λ x, 1 / x) <$> col_Tempo_Medio_Entrega df) i) as [r Hr];
      [by rewrite length_fmap|by eexists|].
    exists r. split; [apply linhas_lookup; eauto|].
    destruct (linha_valores d df Hdf i r Hr)
      as (_ & _ & _ & -> & _ & Hi' & _). simpl. congruence.
  - by apply (HN _ _ L3).
  - intros r (i & Hr)%linhas_lookup.
    destruct (linha_valores d df Hdf i r Hr)
      as (_ & _ & _ & _ & _ & _ & Hi & _ & _ & -> & _).
    split; [|done]. eapply list_elem_of_lookup_2, Hi.
  - intros x (i & Hi)%list_elem_of_lookup_1.
    destruct (HE _ (col_Potencial_PIB_Vizinhos df) i) as [r Hr];
      [done|by eexists|].
    exists r. split; [apply linhas_lookup; eauto|].
    destruct (linha_valores d df Hdf i r Hr)
      as (_ & _ & _ & _ & _ & _ & Hi' & _). congruence.
Qed.

Section Coluna_Normalizada.
Variables (df : Analise) (metrica score : Linha → Q) (col : list Q).
Hypothesis Hcol : coluna_normalizada df metrica score col.



Lemma coluna_constante : maximo col <= minimo col → metrica_constante df metrica.
Proof.
  destruct Hcol as (N & Hr & Hx). intros H ra rb [Ha _]%Hr [Hb _]%Hr.
  pose proof (minimo_le _ _ Ha). pose proof (maximo_ge _ _ Ha).
  pose proof (minimo_le _ _ Hb). pose proof (maximo_ge _ _ Hb). lra.
Qed.

Lemma coluna_constante_inv : metrica_constante df metrica → maximo col == minimo col.
Proof.
  destruct Hcol as (N & Hr & Hx). intros H.
  destruct (Hx _ (minimo_elem col N)) as (ra & Ha & Ea).
  destruct (Hx _ (maximo_elem col N)) as (rb & Hb & Eb).
  rewrite <- Ea, <- Eb. by apply H.
Qed.

Lemma coluna_degenerada (r : Linha) :
  metrica_constante df metrica → r ∈ linhas df → score r == 0.
Proof.
  intros Hc%coluna_constante_inv. destruct Hcol as (N & Hr & Hx).
  intros [Hin ->]%Hr. by apply transform_degenerado.
Qed.

End Coluna_Normalizada.

Lemma metricas_da_linha (d : Dados) (df : Analise) (r : Linha) :
  df_analise d = Ok df → r ∈ linhas df →
  metrica_custo r = 1 / Custo_m2_Aluguel r
  ∧ metrica_logistica r = 1 / Tempo_Medio_Entrega r
  ∧ ¬ Custo_m2_Aluguel r == 0
  ∧ ¬ Tempo_Medio_Entrega r == 0
  ∧ Pontuacao_Final r =
      Score_Custo r * Custo (pesos d) + Score_Logistica r * Logistica (pesos d)
      + Score_Consumo r * Consumo (pesos d).
Proof.
  intros Hdf (i & Hr)%linhas_lookup.
  destruct (linha_valores d df Hdf i r Hr)
    as (N1 & N2 & E1 & E2 & _ & _ & _ & _ & _ & _ & E).
  unfold metrica_custo, metrica_logistica. rewrite E1, E2. done.
Qed.

(** ** The claims on the scoring model *)

(** C1.  For every city of a run, the final score is the weighted sum of the
    three normalized sub-scores, with the weights of the run; the weights of
    the script are 0.30, 0.40 and 0.30, and they sum to 1. *)
Theorem pontuacao_final_soma_ponderada (d : Dados) (df : Analise) (r : Linha) :
  df_analise d = Ok df → r ∈ linhas df →
  Pontuacao_Final r ==
    Custo (pesos d) * Score_Custo r + Logistica (pesos d) * Score_Logistica r
    + Consumo (pesos d) * Score_Consumo r
  ∧ pesos dados = {| Custo := 0.30; Logistica := 0.40; Consumo := 0.30 |}
  ∧ Custo (pesos dados) + Logistica (pesos dados) + Consumo (pesos dados) == 1.
Proof.
  intros Hdf Hr.
  destruct (metricas_da_linha d df r Hdf Hr) as (_ & _ & _ & _ & ->).
  split; [ring|]. split; reflexivity.
Qed.

(** C10.  When all cities of a run have the same value of a metric, every
    city's normalized sub-score for that metric is 0. *)
Theorem normalizacao_degenerada (d : Dados) (df : Analise) :
  df_analise d = Ok df →
  (metrica_constante df metrica_custo → ∀ r, r ∈ linhas df → Score_Custo r == 0)
  ∧ (metrica_constante df metrica_logistica →
     ∀ r, r ∈ linhas df → Score_Logistica r == 0)
  ∧ (metrica_constante df metrica_consumo →
     ∀ r, r ∈ linhas df → Score_Consumo r == 0).
Proof.
  intros (H1 & H2 & H3)%colunas_normalizadas.
  split_and!; intros Hc r Hr; eapply coluna_degenerada; eassumption.
Qed.

(** ** The scores, as far as rounding keeps them *)

Section Coluna_Arredondada.
Variables (df : Analise) (metrica score : Linha → Q) (col : list Q).
Hypothesis Hcol : coluna_normalizada df metrica score col.






End Coluna_Arredondada.






(** ** Where the floats of the script differ from the exact values *)




(** ** The winning city *)

Lemma idxmax_desde_spec (s pre : list Q) (melhor : nat) (valor : Q) :
  (melhor < length pre)%nat →
  primeiro_maximo pre melhor → pre !! melhor = Some valor →
  primeiro_maximo (pre ++ s) (idxmax_desde (length pre) melhor valor s).
Proof.
  revert pre melhor valor. induction s as [|x s IH]; intros pre melhor valor Hlt Hp Hv.
  - simpl. by rewrite app_nil_r.
  - simpl. destruct Hp as (v & Hv' & Hmax & Hfirst).
    assert (v = valor) as -> by congruence.
    replace (pre ++ x :: s) with ((pre ++ [x]) ++ s) by (by rewrite <- app_assoc).
    replace (S (length pre)) with (length (pre ++ [x]))
      by (rewrite length_app; simpl; lia).
    destruct (Qle_bool x valor) eqn:E.
    + apply Qle_bool_iff in E. apply IH.
      * rewrite length_app. simpl. lia.
      * exists valor. split_and!.
        -- by rewrite lookup_app_l.
        -- intros j y [Hj|[_ Hj]]%lookup_app_Some; [eauto|].
           apply list_lookup_singleton_Some in Hj as [_ <-]. done.
        -- intros j y Hj Hy. rewrite lookup_app_l in Hy by lia. eauto.
      * by rewrite lookup_app_l.
    + assert (valor < x) as Hx.
      { apply Qnot_le_lt. intros Hle%Qle_bool_iff. congruence. }
      apply IH.
      * rewrite length_app. simpl. lia.
      * exists x. split_and!.
        -- by rewrite lookup_app_r, Nat.sub_diag.
        -- intros j y [Hj|[_ Hj]]%lookup_app_Some.
           ++ apply Qlt_le_weak. eapply Qle_lt_trans; [|exact Hx]. eauto.
           ++ apply list_lookup_singleton_Some in Hj as [_ <-]. apply Qle_refl.
        -- intros j y Hj Hy. rewrite lookup_app_l in Hy by lia.
           eapply Qle_lt_trans; [|exact Hx]. eauto.
      * by rewrite lookup_app_r, Nat.sub_diag.
Qed.

Lemma idxmax_spec (s : list Q) (k : nat) : idxmax s = Ok k → primeiro_maximo s k.
Proof.
  destruct s as [|x s]; [discriminate|]. simpl. intros [= <-].
  apply (idxmax_desde_spec s [x] 0 x); [simpl; lia| |done].
  exists x. split_and!; [done| |intros; lia].
  intros j y Hj%list_lookup_singleton_Some. destruct Hj as [_ <-]. apply Qle_refl.
Qed.

Lemma idxmax_total (s : list Q) : s ≠ [] → ∃ k, idxmax s = Ok k.
Proof. destruct s; [done|]. simpl. eauto. Qed.

Lemma cidade_vencedora_spec (d : Dados) (df : Analise) :
  df_analise d = Ok df →
  ∃ i r, cidade_vencedora df = Ok r ∧ linha df i = Some r
    ∧ (∀ j r', linha df j = Some r' → Pontuacao_Final r' <= Pontuacao_Final r)
    ∧ (∀ j r', (j < i)%nat → linha df j = Some r' →
         Pontuacao_Final r' < Pontuacao_Final r).
Proof.
  intros Hdf. destruct (df_analise_colunas d df Hdf) as (N & _).
  assert (0 < length (col_Cidade df))%nat as Hn
    by (destruct (col_Cidade df); [done|simpl; lia]).
  destruct (linha_existe d df Hdf 0 Hn) as [r0 Hr0].
  apply linha_campos in Hr0 as (_ & _ & _ & _ & _ & _ & _ & _ & _ & H0).
  destruct (idxmax_total (col_Pontuacao_Final df)) as [i Hi].
  { intros E. by rewrite E in H0. }
  destruct (idxmax_spec _ _ Hi) as (v & Hv & Hmax & Hfirst).
  destruct (linha_existe d df Hdf i) as [r Hr].
  { apply lookup_lt_Some in Hv. by rewrite <- (comprimento_pontuacao d df Hdf). }
  exists i, r. unfold cidade_vencedora. rewrite Hi. simpl. unfold loc. rewrite Hr.
  pose proof (linha_campos _ _ _ Hr) as (_ & _ & _ & _ & _ & _ & _ & _ & _ & Hp).
  assert (v = Pontuacao_Final r) as -> by congruence.
  split_and!; try done.
  - intros j r' (_ & _ & _ & _ & _ & _ & _ & _ & _ & Hj)%linha_campos. eauto.
  - intros j r' Hlt (_ & _ & _ & _ & _ & _ & _ & _ & _ & Hj)%linha_campos. eauto.
Qed.

(** ** Output and charts *)

Lemma apenas_plotly_ret {A : Type} (a : A) : apenas_plotly (mret a).
Proof. intros falha log. exists []. by rewrite app_nil_r. Qed.

Lemma apenas_plotly_elevar {A : Type} (r : resultado A) : apenas_plotly (elevar r).
Proof. intros falha log. exists []. by rewrite app_nil_r. Qed.

Lemma apenas_plotly_chamar (c : chamada) : apenas_plotly (chamar c).
Proof. intros falha log. exists [Plotly c]. split; [done|]. by constructor. Qed.

Lemma apenas_plotly_bind {A B : Type} (m : Prog A) (f : A → Prog B) :
  apenas_plotly m → (∀ a, apenas_plotly (f a)) → apenas_plotly (m ≫= f).
Proof.
  intros Hm Hf falha log. unfold mbind, Prog_bind.
  destruct (Hm falha log) as (evs & E & F).
  destruct (m falha log) as [log' [a|e]]; simpl in E; subst log'.
  - destruct (Hf a falha (log ++ evs)) as (evs' & E' & F').
    exists (evs ++ evs'). rewrite E', app_assoc. split; [done|].
    by apply Forall_app.
  - by exists evs.
Qed.

Lemma apenas_plotly_para_cada {A : Type} (l : list A) (corpo : A → Prog unit) :
  (∀ x, apenas_plotly (corpo x)) → apenas_plotly (para_cada l corpo).
Proof.
  intros H. induction l as [|x l IH]; simpl.
  - apply apenas_plotly_ret.
  - apply apenas_plotly_bind; auto.
Qed.

Create HintDb plotly.
#[local] Hint Resolve apenas_plotly_ret apenas_plotly_elevar apenas_plotly_chamar
  apenas_plotly_para_cada : plotly.
#[local] Hint Extern 1 (apenas_plotly (_ ≫= _)) =>
  apply apenas_plotly_bind; [|intros ?] : plotly.

Lemma apenas_plotly_desenhar_graficos (capitais : list string) :
  apenas_plotly (desenhar_graficos capitais).
Proof. unfold desenhar_graficos. auto 30 with plotly. Qed.

Lemma imprimir_resultados_log (df : Analise) (r : Linha) (falha : Ambiente)
    (log : list evento) :
  imprimir_resultados df r falha log = (log ++ resultados_impressos df r, Ok ()).
Proof.
  unfold imprimir_resultados, resultados_impressos, mbind, Prog_bind, print,
    print_tabela.
  by rewrite <- !app_assoc.
Qed.

Lemma executar_log (d : Dados) (df : Analise) (r : Linha) (falha : Ambiente) :
  df_analise d = Ok df → cidade_vencedora df = Ok r →
  ∃ graficos,
    (executar d falha []).1 = resultados_impressos df r ++ graficos
    ∧ Forall (λ e, e_plotly e = true) graficos.
Proof.
  intros Hdf Hr. unfold executar, mbind at 1 2 3, Prog_bind, elevar.
  rewrite Hdf, Hr, imprimir_resultados_log. simpl app.
  apply (apenas_plotly_desenhar_graficos (capitais_ne d) falha).
Qed.

Lemma executar_falha (d : Dados) (falha : Ambiente) (e : excecao) :
  df_analise d = Raise e → executar d falha [] = ([], Raise e).
Proof.
  intros Hdf. unfold executar, mbind at 1, Prog_bind, elevar. by rewrite Hdf.
Qed.

Lemma saida_console_graficos (impressos graficos : list evento) :
  Forall (λ e, e_plotly e = false) impressos →
  Forall (λ e, e_plotly e = true) graficos →
  saida_console (impressos ++ graficos) = impressos.
Proof.
  intros Hi Hg. unfold saida_console. rewrite filter_app.
  assert (filter (λ e, e_plotly e = false) graficos = []) as ->.
  { induction Hg as [|e l He _ IH]; [done|].
    rewrite filter_cons_False; [done|congruence]. }
  rewrite app_nil_r.
  induction Hi as [|e l He _ IH]; [done|].
  rewrite filter_cons_True by done. by rewrite IH.
Qed.

(** ** The claims on the run *)

(** C2.  The city reported as the winner is a city with the maximum final
    score, and every city before it in the order of the rows has a strictly
    lower final score; when the three input dicts list the same cities, each
    once, the order of the rows is the order of the input. *)
Theorem cidade_vencedora_primeiro_maximo (d : Dados) (df : Analise) :
  df_analise d = Ok df →
  ∃ i r, cidade_vencedora df = Ok r ∧ linha df i = Some r
    ∧ (∀ j r', linha df j = Some r' → Pontuacao_Final r' <= Pontuacao_Final r)
    ∧ (∀ j r', (j < i)%nat → linha df j = Some r' →
         Pontuacao_Final r' < Pontuacao_Final r)
    ∧ (∀ falha,
         Print ("A cidade com a localização mais estratégica é: " +:+ Cidade r)
         ∈ (executar d falha []).1)
    ∧ (∀ ks, NoDup ks → (custos_imobiliarios d).1 = ks →
         (distancias d).1 = ks → (potencial_consumo d).1 = ks →
         col_Cidade df = ks ∧ ks !! i = Some (Cidade r)).
Proof.
  intros Hdf.
  destruct (cidade_vencedora_spec d df Hdf) as (i & r & Hv & Hr & Hmax & Hfirst).
  exists i, r. split_and!; try done.
  - intros falha. destruct (executar_log d df r falha Hdf Hv) as (g & -> & _).
    apply elem_of_app. left. unfold resultados_impressos.
    rewrite !elem_of_cons.
    do 4 right. by left.
  - intros ks ND E1 E2 E3.
    destruct (linhas_na_ordem_de_entrada d df ks Hdf ND E1 E2 E3) as (E & _).
    split; [done|]. rewrite <- E. by apply linha_campos in Hr as (Hc & _).
Qed.

(** C7.  Two runs on the same data write the same output to the console,
    whatever the charting library does in either of them. *)
Theorem saida_deterministica (d : Dados) (falha1 falha2 : Ambiente) :
  saida_console (executar d falha1 []).1 = saida_console (executar d falha2 []).1.
Proof.
  destruct (df_analise d) as [df|e] eqn:Hdf.
  - destruct (cidade_vencedora_spec d df Hdf) as (i & r & Hv & _).
    destruct (executar_log d df r falha1 Hdf Hv) as (g1 & -> & F1).
    destruct (executar_log d df r falha2 Hdf Hv) as (g2 & -> & F2).
    rewrite !saida_console_graficos; try done; by repeat constructor.
  - by rewrite !(executar_falha d _ e Hdf).
Qed.

(** C9.  In every run that reaches section 3, the table and the conclusion
    naming the winning city are written before the first call into the
    charting library, and they are the whole console output whether or not
    a chart call fails. *)
Theorem resultados_antes_dos_graficos (d : Dados) (df : Analise) (falha : Ambiente) :
  df_analise d = Ok df →
  ∃ r graficos,
    cidade_vencedora df = Ok r
    ∧ (executar d falha []).1 = resultados_impressos df r ++ graficos
    ∧ Forall (λ e, e_plotly e = false) (resultados_impressos df r)
    ∧ Forall (λ e, e_plotly e = true) graficos
    ∧ saida_console (executar d falha []).1 = resultados_impressos df r.
Proof.
  intros Hdf.
  destruct (cidade_vencedora_spec d df Hdf) as (i & r & Hv & _).
  destruct (executar_log d df r falha Hdf Hv) as (g & E & F).
  assert (Forall (λ e, e_plotly e = false) (resultados_impressos df r)) as Fp
    by (by repeat constructor).
  exists r, g. rewrite E. split_and!; try done.
  by apply saida_console_graficos.
Qed.

(** ** The weights are not validated *)

Lemma df_tempos_com_pesos (p : Pesos) (d : Dados) :
  df_tempos (com_pesos p d) = df_tempos d.
Proof. reflexivity. Qed.

(** C6, as the script behaves.  Nothing checks the weights: whether the
    analysis of some data is rejected, and with which exception, is the same
    for any two weight triples, and so are the normalized sub-scores; the
    weights of the script sum to 1. *)
Theorem pesos_nao_validados (d : Dados) (p : Pesos) :
  ((∃ df df', df_analise d = Ok df ∧ df_analise (com_pesos p d) = Ok df'
      ∧ col_Cidade df' = col_Cidade df
      ∧ col_Score_Custo df' = col_Score_Custo df
      ∧ col_Score_Logistica df' = col_Score_Logistica df
      ∧ col_Score_Consumo df' = col_Score_Consumo df)
   ∨ (∃ e, df_analise d = Raise e ∧ df_analise (com_pesos p d) = Raise e))
  ∧ Custo (pesos dados) + Logistica (pesos dados) + Consumo (pesos dados) == 1.
Proof.
  split; [|reflexivity].
  unfold df_analise. rewrite df_tempos_com_pesos.
  change (custos_imobiliarios (com_pesos p d)) with (custos_imobiliarios d).
  change (potencial_consumo (com_pesos p d)) with (potencial_consumo d).
  destruct (pd_DataFrame2 (custos_imobiliarios d).1 (custos_imobiliarios d).2)
    as [df_custos|e]; [|right; exists e; split; reflexivity].
  destruct (df_tempos d) as [tempos|e]; [|right; exists e; split; reflexivity].
  destruct (pd_DataFrame2 (potencial_consumo d).1 (potencial_consumo d).2)
    as [df_consumo|e]; [|right; exists e; split; reflexivity].
  unfold mbind, resultado_bind.
  destruct (fit_transform _) as [scores|e]; [|right; exists e; split; reflexivity].
  destruct scores as [|s1 [|s2 [|s3 [|s4 scores]]]];
    try (right; exists ValueError; split; reflexivity).
  left. eexists _, _. split; [reflexivity|]. split; [reflexivity|]. done.
Qed.

(** C6, as stated, fails: with the weights 0.5, 0.5 and 0.5 the data of the
    script is not rejected; the analysis gives Recife the final score 1 and
    the run prints it. *)
Lemma pesos_invalidos_nao_rejeitados :
  ¬ Custo pesos_invalidos + Logistica pesos_invalidos + Consumo pesos_invalidos == 1
  ∧ (¬ ∃ e, df_analise dados_pesos_invalidos = Raise e)
  ∧ ∃ df r, df_analise dados_pesos_invalidos = Ok df
      ∧ cidade_vencedora df = Ok r
      ∧ Cidade r = "Recife" ∧ Pontuacao_Final r == 1
      ∧ (executar dados_pesos_invalidos (λ _, false) []).2 = Ok ()
      ∧ Print "Pontuação Final: 1.00"
        ∈ (executar dados_pesos_invalidos (λ _, false) []).1.
Proof.
  split; [by vm_compute|].
  split; [intros [e He]; by vm_compute in He|].
  eexists _, _. split; [vm_compute; reflexivity|].
  split; [vm_compute; reflexivity|].
  split; [reflexivity|]. split; [by vm_compute|].
  split; [vm_compute; reflexivity|].
  match goal with
  | |- _ ∈ ?log => let l := eval vm_compute in log in change log with l
  end.
  rewrite !elem_of_cons. do 5 right. by left.
Qed.

(** ** The claim on the average delivery time *)

(** C3.  For every city, the computed average delivery time is the
    arithmetic mean, over the destinations of the shared list, of the
    city's distance to the destination divided by 60; the destination list
    names no destination twice. *)
Theorem tempo_medio_de_entrega (d : Dados) (tempos : list (string * Q))
    (i : nat) (cidade : string) (t : Q) :
  df_tempos d = Ok tempos → NoDup (capitais_ne d) →
  tempos !! i = Some (cidade, t) →
  ∃ dists : list Q,
    (distancias d).1 !! i = Some cidade
    ∧ Forall2 (λ capital dist,
                 ∃ col, (distancias d).2 !! capital = Some col
                        ∧ col !! i = Some dist)
        (capitais_ne d) dists
    ∧ dists ≠ []
    ∧ t == soma ((λ dist, dist / 60) <$> dists) / inject_Z (Z.of_nat (length dists)).
Proof.
  intros Hd ND Hi. unfold df_tempos in Hd.
  inv_bind Hd. inv_bind Hd. inv_bind Hd. inv_bind Hd. injection Hd as <-.
  unfold pd_DataFrame in Ha. case_decide as HF; [|discriminate].
  injection Ha as <-. cbn [df_Cidade df_colunas] in *.
  apply lookup_zip_with_Some in Hi as (c & t' & [= <- <-] & Hc & Ht).
  apply mean_axis1_Ok in Ha2 as [Hne ->].
  rewrite list_lookup_fmap in Ht.
  destruct (seq 0 (length (distancias d).1) !! i) as [i'|] eqn:Es; [|discriminate].
  apply lookup_seq in Es as [-> Hlt]. injection Ht as <-.
  destruct (converter_em_horas_spec _ _ _ ND Ha0) as [Hh _].
  destruct (distancias_da_linha _ _ _ i _ _ Hlt HF Hh (mapM_Ok _ _ _ Ha1))
    as (dists & Hdists & E).
  exists dists. split_and!; try done.
  - intros ->. by apply fmap_nil_inv in E.
  - cbn [Nat.add]. rewrite E. unfold media. by rewrite length_fmap.
Qed.

(** ** The claims at the data of the script *)

Lemma df_analise_dados : df_analise dados = Ok df_referencia.
Proof. vm_compute. reflexivity. Defined.

Lemma linha_recife_em_df : linha_recife ∈ linhas df_referencia.
Proof. apply linhas_lookup. exists 0%nat. vm_compute. reflexivity. Defined.


Lemma pontuacao_final_soma_ponderada_witness :
  Pontuacao_Final linha_recife ==
    Custo (pesos dados) * Score_Custo linha_recife
    + Logistica (pesos dados) * Score_Logistica linha_recife
    + Consumo (pesos dados) * Score_Consumo linha_recife
  ∧ pesos dados = {| Custo := 0.30; Logistica := 0.40; Consumo := 0.30 |}
  ∧ Custo (pesos dados) + Logistica (pesos dados) + Consumo (pesos dados) == 1.
Proof.
  apply (pontuacao_final_soma_ponderada dados df_referencia linha_recife).
  - exact df_analise_dados.
  - exact linha_recife_em_df.
Defined.

Lemma cidade_vencedora_primeiro_maximo_witness :
  ∃ i r, cidade_vencedora df_referencia = Ok r ∧ linha df_referencia i = Some r
    ∧ (∀ j r', linha df_referencia j = Some r' →
         Pontuacao_Final r' <= Pontuacao_Final r)
    ∧ (∀ j r', (j < i)%nat → linha df_referencia j = Some r' →
         Pontuacao_Final r' < Pontuacao_Final r)
    ∧ (∀ falha,
         Print ("A cidade com a localização mais estratégica é: " +:+ Cidade r)
         ∈ (executar dados falha []).1)
    ∧ (∀ ks, NoDup ks → (custos_imobiliarios dados).1 = ks →
         (distancias dados).1 = ks → (potencial_consumo dados).1 = ks →
         col_Cidade df_referencia = ks ∧ ks !! i = Some (Cidade r)).
Proof.
  apply (cidade_vencedora_primeiro_maximo dados df_referencia).
  exact df_analise_dados.
Defined.

Lemma tempo_medio_de_entrega_witness :
  ∃ dists : list Q,
    (distancias dados).1 !! 0%nat = Some "Recife"
    ∧ Forall2 (λ capital dist,
                 ∃ col, (distancias dados).2 !! capital = Some col
                        ∧ col !! 0%nat = Some dist)
        (capitais_ne dados) dists
    ∧ dists ≠ []
    ∧ Tempo_Medio_Entrega linha_recife
      == soma ((λ dist, dist / 60) <$> dists) / inject_Z (Z.of_nat (length dists)).
Proof.
  apply (tempo_medio_de_entrega dados
           [("Recife", Tempo_Medio_Entrega linha_recife);
            ("Salvador", Tempo_Medio_Entrega linha_salvador)]).
  - vm_compute. reflexivity.
  - compute_done.
  - reflexivity.
Defined.



Lemma resultados_antes_dos_graficos_witness :
  ∃ r graficos,
    cidade_vencedora df_referencia = Ok r
    ∧ (executar dados falha_em_fig_bar_show []).1
      = resultados_impressos df_referencia r ++ graficos
    ∧ Forall (λ e, e_plotly e = false) (resultados_impressos df_referencia r)
    ∧ Forall (λ e, e_plotly e = true) graficos
    ∧ saida_console (executar dados falha_em_fig_bar_show []).1
      = resultados_impressos df_referencia r.
Proof.
  apply (resultados_antes_dos_graficos dados df_referencia falha_em_fig_bar_show).
  exact df_analise_dados.
Defined.

(** ** The claims at other data *)


Ltac calcular_linhas df :=
  let l := eval vm_compute in (linhas df) in
  change (linhas df) with l in *.

Ltac por_linha H :=
  repeat (apply elem_of_cons in H as [->|H]); [..|by apply elem_of_nil in H].

(** Every metric is constant when the two cities have the same values. *)
Lemma metricas_constantes_no_empate :
  metrica_constante df_empate metrica_custo
  ∧ metrica_constante df_empate metrica_logistica
  ∧ metrica_constante df_empate metrica_consumo.
Proof.
  split_and!; intros ra rb Ha Hb; calcular_linhas df_empate;
    por_linha Ha; por_linha Hb; reflexivity.
Defined.

Lemma normalizacao_degenerada_witness :
  (∀ r, r ∈ linhas df_empate → Score_Custo r == 0)
  ∧ (∀ r, r ∈ linhas df_empate → Score_Logistica r == 0)
  ∧ (∀ r, r ∈ linhas df_empate → Score_Consumo r == 0).
Proof.
  assert (df_analise dados_empate = Ok df_empate) as Hdf
    by (vm_compute; reflexivity).
  destruct (normalizacao_degenerada dados_empate df_empate Hdf) as (H1 & H2 & H3).
  destruct metricas_constantes_no_empate as (C1 & C2 & C3).
  split; [exact (H1 C1)|]. split; [exact (H2 C2)|exact (H3 C3)].
Defined.

(** ** Examples *)

(** The console output of the script: Recife wins with the final score
    0.70, whatever happens to the charts. *)
Lemma saida_de_referencia (falha : Ambiente) :
  saida_console (analisar_localizacao_cd falha []).1 =
  [Print "--- Análise de Localização Estratégica para Novo CD Magalu ---";
   Print (nova_linha +:+ "Dataframe de Análise Final:");
   PrintTabela
     [("Recife", round2 18.50, round2 11.07, round2 51.6, round2 0.7);
      ("Salvador", round2 21.00, round2 16.33, round2 56.3, round2 0.3)];
   Print (nova_linha +:+ "--- Conclusão ---");
   Print "A cidade com a localização mais estratégica é: Recife";
   Print "Pontuação Final: 0.70"].
Proof.
  assert (cidade_vencedora df_referencia = Ok linha_recife) as Hv
    by (vm_compute; reflexivity).
  unfold analisar_localizacao_cd.
  destruct (executar_log dados df_referencia linha_recife falha
              df_analise_dados Hv) as (g & -> & F).
  rewrite saida_console_graficos; [|by repeat constructor|done].
  vm_compute. reflexivity.
Qed.

(** The check of section 8 of the specification: distances 60 and 120 give
    the times 1 and 2 and the mean 1.5. *)
Lemma tempo_medio_dois_destinos :
  ∃ t, df_tempos dados_dois_destinos = Ok [("Recife", t)] ∧ t == 1.5.
Proof. eexists. split; [vm_compute; reflexivity|reflexivity]. Qed.

(** A destination named twice has its column divided by 60 twice: the
    distance 60 gives the mean time 1/60, not 1. *)
Lemma destino_repetido_dividido_duas_vezes :
  ∃ t, df_tempos dados_destino_repetido = Ok [("Recife", t)] ∧ t == 1 / 60.
Proof. eexists. split; [vm_compute; reflexivity|reflexivity]. Qed.

(** A negative rent is not refused, and it reverses the order of the
    inverted cost: city A is better than city B on the three criteria and
    has the lower final score. *)
Lemma custo_negativo_inverte_a_ordem :
  ∃ df ra rb,
    df_analise dados_custo_negativo = Ok df
    ∧ linha df 0 = Some ra ∧ linha df 1 = Some rb
    ∧ Custo_m2_Aluguel ra < Custo_m2_Aluguel rb
    ∧ Tempo_Medio_Entrega ra < Tempo_Medio_Entrega rb
    ∧ Potencial_PIB_Vizinhos rb < Potencial_PIB_Vizinhos ra
    ∧ Pontuacao_Final ra < Pontuacao_Final rb.
Proof.
  eexists _, _, _. split; [vm_compute; reflexivity|].
  split; [vm_compute; reflexivity|]. split; [vm_compute; reflexivity|].
  repeat split.
Qed.

(** Two cities tied on the final score: the first one is reported. *)
Lemma empate_vence_a_primeira :
  ∃ r, cidade_vencedora df_empate = Ok r ∧ Cidade r = "Recife"
    ∧ Forall (λ r', Pontuacao_Final r' == Pontuacao_Final r) (linhas df_empate).
Proof.
  eexists. split; [vm_compute; reflexivity|]. split; [reflexivity|].
  vm_compute. repeat constructor.
Qed.

(** A rent of zero makes the inverted cost infinite, and the scaler refuses
    the column: nothing is printed. *)
Lemma custo_zero_rejeitado (falha : Ambiente) :
  let d := {| custos_imobiliarios := (["Recife"; "Salvador"], [0; 21.00]);
              capitais_ne := capitais_ne dados;
              distancias := distancias dados;
              potencial_consumo := potencial_consumo dados;
              pesos := pesos dados |} in
  executar d falha [] = ([], Raise ValueError).
Proof. intros d. apply executar_falha. vm_compute. reflexivity. Qed.


(** * Further properties *)

(** ** The sequence of chart calls *)

Lemma numero_de_chamadas_app (log : list evento) (c : chamada) :
  numero_de_chamadas (log ++ [Plotly c]) = S (numero_de_chamadas log).
Proof.
  unfold numero_de_chamadas. rewrite filter_app, length_app.
  rewrite filter_cons_True by done. simpl. lia.
Qed.

Lemma chamadas_sem_falha (cs : list chamada) (falha : Ambiente) (log : list evento) :
  (∀ k, (k < length cs)%nat → falha (numero_de_chamadas log + k)%nat = false) →
  para_cada cs chamar falha log = (log ++ (Plotly <$> cs), Ok ()).
Proof.
  revert log. induction cs as [|c cs IH]; intros log H.
  - simpl. by rewrite app_nil_r.
  - simpl. unfold mbind, Prog_bind, chamar at 1.
    fold (numero_de_chamadas log).
    pose proof (H 0%nat ltac:(simpl; lia)) as H0. rewrite Nat.add_0_r in H0.
    rewrite H0, IH.
    + by rewrite <- app_assoc.
    + intros k Hk. rewrite numero_de_chamadas_app.
      replace (S (numero_de_chamadas log) + k)%nat
        with (numero_de_chamadas log + S k)%nat by lia.
      apply H. simpl. lia.
Qed.

Lemma chamadas_primeira_falha (cs : list chamada) (falha : Ambiente)
    (log : list evento) (k : nat) :
  (k < length cs)%nat →
  falha (numero_de_chamadas log + k)%nat = true →
  (∀ j, (j < k)%nat → falha (numero_de_chamadas log + j)%nat = false) →
  para_cada cs chamar falha log
  = (log ++ (Plotly <$> take (S k) cs), Raise PlotlyError).
Proof.
  revert log k. induction cs as [|c cs IH]; intros log k Hk Hf Hb.
  - simpl in Hk. lia.
  - simpl. unfold mbind, Prog_bind, chamar at 1.
    fold (numero_de_chamadas log). destruct k as [|k].
    + rewrite Nat.add_0_r in Hf. rewrite Hf. by rewrite take_0.
    + pose proof (Hb 0%nat ltac:(lia)) as H0. rewrite Nat.add_0_r in H0.
      rewrite H0, (IH _ k).
      * by rewrite <- app_assoc.
      * simpl in Hk. lia.
      * rewrite numero_de_chamadas_app.
        by replace (S (numero_de_chamadas log) + k)%nat
          with (numero_de_chamadas log + S k)%nat by lia.
      * intros j Hj. rewrite numero_de_chamadas_app.
        replace (S (numero_de_chamadas log) + j)%nat
          with (numero_de_chamadas log + S j)%nat by lia.
        apply Hb. lia.
Qed.

Lemma faz_chamar (c : chamada) : faz_as_chamadas (chamar c) [c].
Proof.
  intros falha log. simpl. unfold mbind, Prog_bind, chamar.
  by destruct (falha _).
Qed.

Lemma faz_nada : faz_as_chamadas (mret ()) [].
Proof. done. Qed.

Lemma faz_bind (p q : Prog unit) (cs cs' : list chamada) :
  faz_as_chamadas p cs → faz_as_chamadas q cs' →
  faz_as_chamadas (p ;; q) (cs ++ cs').
Proof.
  intros Hp Hq falha log. unfold mbind, Prog_bind. rewrite (Hp falha log).
  clear Hp. revert log. induction cs as [|c cs IH]; intros log.
  - simpl. apply Hq.
  - simpl. unfold mbind, Prog_bind.
    destruct (chamar c falha log) as [log' [[]|e]]; [apply IH|done].
Qed.

Lemma faz_elevar {A : Type} (x : A) (p : Prog unit) (cs : list chamada) :
  faz_as_chamadas p cs → faz_as_chamadas (elevar (Ok x) ;; p) cs.
Proof. intros Hp falha log. unfold mbind, Prog_bind, elevar. apply Hp. Qed.

Lemma faz_para_cada {A : Type} (l : list A) (corpo : A → Prog unit)
    (g : A → list chamada) :
  (∀ x, x ∈ l → faz_as_chamadas (corpo x) (g x)) →
  faz_as_chamadas (para_cada l corpo) (l ≫= g).
Proof.
  induction l as [|x l IH]; intros H; [apply faz_nada|].
  rewrite bind_cons. cbn [para_cada]. apply faz_bind.
  - apply H. by left.
  - apply IH. intros y Hy. apply H. by right.
Qed.

Lemma coords_getitem_Some (nome : string) :
  is_Some (coords !! nome) → ∃ c, coords_getitem nome = Ok c.
Proof. intros [c Hc]. exists c. unfold coords_getitem. by rewrite Hc. Qed.

Lemma desenhar_graficos_faz (capitais : list string) :
  Forall (λ c, is_Some (coords !! c)) capitais →
  faz_as_chamadas (desenhar_graficos capitais) (chamadas_dos_graficos capitais).
Proof.
  intros H. unfold desenhar_graficos, chamadas_dos_graficos.
  apply (faz_bind _ _ [px_bar]); [apply faz_chamar|].
  apply (faz_bind _ _ [fig_bar_show]); [apply faz_chamar|].
  apply (faz_bind _ _ [go_Figure]); [apply faz_chamar|].
  destruct (coords_getitem_Some "Recife") as [cr Hr]; [by eexists|].
  destruct (coords_getitem_Some "Salvador") as [cs Hs]; [by eexists|].
  rewrite Hr, Hs. do 2 apply faz_elevar.
  apply (faz_bind _ _ [go_Scattergeo]); [apply faz_chamar|].
  apply (faz_bind _ _ [add_trace]); [apply faz_chamar|].
  apply faz_bind.
  { apply faz_para_cada. intros c Hc.
    destruct (coords_getitem_Some c) as [cc ->];
      [by apply (proj1 (Forall_forall _ _) H)|].
    apply faz_elevar.
    apply (faz_bind _ _ [go_Scattergeo] [add_trace]); apply faz_chamar. }
  apply faz_bind.
  { apply faz_para_cada. intros c Hc.
    destruct (coords_getitem_Some c) as [cc ->];
      [by apply (proj1 (Forall_forall _ _) H)|].
    do 2 apply faz_elevar.
    apply (faz_bind _ _ [go_Scattergeo] [add_trace]); apply faz_chamar. }
  apply (faz_bind _ _ [update_layout] [fig_map_show]); apply faz_chamar.
Qed.

Lemma comprimento_das_chamadas (capitais : list string) :
  length (chamadas_dos_graficos capitais) = (7 + 4 * length capitais)%nat.
Proof.
  assert (∀ l : list string,
            length (l ≫= λ _, [go_Scattergeo; add_trace]) = (2 * length l)%nat)
    as H.
  { induction l as [|x l IH]; [done|]. rewrite bind_cons, length_app, IH.
    simpl. lia. }
  unfold chamadas_dos_graficos. rewrite !length_app, !H. simpl. lia.
Qed.

Lemma executar_graficos (d : Dados) (df : Analise) (r : Linha) (falha : Ambiente) :
  df_analise d = Ok df → cidade_vencedora df = Ok r →
  executar d falha []
  = desenhar_graficos (capitais_ne d) falha (resultados_impressos df r).
Proof.
  intros Hdf Hr. unfold executar, mbind at 1 2 3, Prog_bind, elevar.
  by rewrite Hdf, Hr, imprimir_resultados_log.
Qed.

(** X1.  When every destination has coordinates and no call into the
    charting library raises, a run that reaches section 3 returns normally;
    after the six prints it makes the 7 + 4n chart calls of the script in
    order, n being the number of destinations, the last one showing the
    map. *)
Theorem execucao_sem_falhas (d : Dados) (df : Analise) (falha : Ambiente) :
  df_analise d = Ok df →
  Forall (λ c, is_Some (coords !! c)) (capitais_ne d) →
  (∀ k, (k < 7 + 4 * length (capitais_ne d))%nat → falha k = false) →
  ∃ r, cidade_vencedora df = Ok r
    ∧ executar d falha []
      = (resultados_impressos df r
           ++ (Plotly <$> chamadas_dos_graficos (capitais_ne d)),
         Ok ())
    ∧ length (chamadas_dos_graficos (capitais_ne d))
      = (7 + 4 * length (capitais_ne d))%nat
    ∧ last (chamadas_dos_graficos (capitais_ne d)) = Some fig_map_show.
Proof.
  intros Hdf Hc Hf.
  destruct (cidade_vencedora_spec d df Hdf) as (i & r & Hr & _).
  exists r. split; [done|]. split; [|split].
  - rewrite (executar_graficos d df r falha Hdf Hr).
    rewrite (desenhar_graficos_faz _ Hc). apply chamadas_sem_falha.
    intros k Hk. rewrite comprimento_das_chamadas in Hk. by apply Hf.
  - apply comprimento_das_chamadas.
  - unfold chamadas_dos_graficos.
    change [update_layout; fig_map_show]
      with ([update_layout] ++ [fig_map_show]).
    rewrite !app_assoc. by rewrite last_snoc.
Qed.

(** X2.  When every destination has coordinates and the call number k into
    the charting library is the first that raises, the run raises the
    library's error at that call: the log holds the six prints and the
    first k + 1 chart calls, and no later call is made. *)
Theorem primeira_falha_interrompe (d : Dados) (df : Analise) (falha : Ambiente)
    (k : nat) :
  df_analise d = Ok df →
  Forall (λ c, is_Some (coords !! c)) (capitais_ne d) →
  (k < 7 + 4 * length (capitais_ne d))%nat →
  falha k = true → (∀ j, (j < k)%nat → falha j = false) →
  ∃ r, cidade_vencedora df = Ok r
    ∧ executar d falha []
      = (resultados_impressos df r
           ++ (Plotly <$> take (S k) (chamadas_dos_graficos (capitais_ne d))),
         Raise PlotlyError).
Proof.
  intros Hdf Hc Hk Hf Hb.
  destruct (cidade_vencedora_spec d df Hdf) as (i & r & Hr & _).
  exists r. split; [done|].
  rewrite (executar_graficos d df r falha Hdf Hr).
  rewrite (desenhar_graficos_faz _ Hc).
  apply chamadas_primeira_falha; try done.
  by rewrite comprimento_das_chamadas.
Qed.

(** ** A destination without coordinates *)

Lemma Prog_bind_Ok {A B : Type} (m : Prog A) (f : A → Prog B) (falha : Ambiente)
    (log log' : list evento) (a : A) :
  m falha log = (log', Ok a) → (m ≫= f) falha log = f a falha log'.
Proof. intros E. unfold mbind, Prog_bind. by rewrite E. Qed.

Lemma Prog_bind_Raise {A B : Type} (m : Prog A) (f : A → Prog B)
    (falha : Ambiente) (log log' : list evento) (e : excecao) :
  m falha log = (log', Raise e) → (m ≫= f) falha log = (log', Raise e).
Proof. intros E. unfold mbind, Prog_bind. by rewrite E. Qed.

Lemma chamar_Ok (c : chamada) (falha : Ambiente) (log : list evento) :
  (∀ k, falha k = false) → chamar c falha log = (log ++ [Plotly c], Ok ()).
Proof. intros Hf. unfold chamar. by rewrite Hf. Qed.

Lemma levanta_bind_l {A B : Type} (P : evento → Prop) (m : Prog A)
    (f : A → Prog B) :
  levanta_com P m → levanta_com P (m ≫= f).
Proof.
  intros Hm falha log. destruct (Hm falha log) as (evs & e & E & F).
  exists evs, e. unfold mbind, Prog_bind. by rewrite E.
Qed.

Lemma levanta_bind_r {A B : Type} (P : evento → Prop) (m : Prog A)
    (f : A → Prog B) :
  so_eventos P m → (∀ a, levanta_com P (f a)) → levanta_com P (m ≫= f).
Proof.
  intros Hm Hf falha log. destruct (Hm falha log) as (evs & r & E & F).
  unfold mbind, Prog_bind. rewrite E. destruct r as [a|e].
  - destruct (Hf a falha (log ++ evs)) as (evs' & e & E' & F').
    exists (evs ++ evs'), e. rewrite E', app_assoc. split; [done|].
    by apply Forall_app.
  - by exists evs, e.
Qed.

Lemma so_eventos_bind {A B : Type} (P : evento → Prop) (m : Prog A)
    (f : A → Prog B) :
  so_eventos P m → (∀ a, so_eventos P (f a)) → so_eventos P (m ≫= f).
Proof.
  intros Hm Hf falha log. destruct (Hm falha log) as (evs & r & E & F).
  unfold mbind, Prog_bind. rewrite E. destruct r as [a|e].
  - destruct (Hf a falha (log ++ evs)) as (evs' & r & E' & F').
    exists (evs ++ evs'), r. rewrite E', app_assoc. split; [done|].
    by apply Forall_app.
  - by exists evs, (Raise e).
Qed.

Lemma so_eventos_chamar (P : evento → Prop) (c : chamada) :
  P (Plotly c) → so_eventos P (chamar c).
Proof.
  intros H falha log. eexists [Plotly c], _. split; [reflexivity|].
  by constructor.
Qed.

Lemma so_eventos_elevar {A : Type} (P : evento → Prop) (r : resultado A) :
  so_eventos P (elevar r).
Proof. intros falha log. exists [], r. by rewrite app_nil_r. Qed.

Lemma levanta_elevar {A : Type} (P : evento → Prop) (e : excecao) :
  levanta_com P (elevar (A:=A) (Raise e)).
Proof. intros falha log. exists [], e. by rewrite app_nil_r. Qed.

(** The loop over the markers of the destinations never ends normally when
    a destination has no coordinates. *)
Lemma marcadores_levantam (capitais : list string) (c : string) :
  c ∈ capitais → coords !! c = None →
  levanta_com antes_do_mapa
    (para_cada capitais (λ capital,
       elevar (coords_getitem capital) ;;
       chamar go_Scattergeo ;;
       chamar add_trace)).
Proof.
  intros Hc Hn. induction capitais as [|x l IH]; [by apply elem_of_nil in Hc|].
  cbn [para_cada]. destruct (decide (x = c)) as [->|Hne].
  - apply levanta_bind_l. unfold coords_getitem. rewrite Hn.
    apply levanta_bind_l, levanta_elevar.
  - apply levanta_bind_r.
    + apply so_eventos_bind; [apply so_eventos_elevar|intros _].
      apply so_eventos_bind; [|intros _]; by apply so_eventos_chamar.
    + intros _. apply IH. apply elem_of_cons in Hc as [->|Hc]; done.
Qed.

Lemma desenhar_graficos_levanta (capitais : list string) (c : string) :
  c ∈ capitais → coords !! c = None →
  levanta_com antes_do_mapa (desenhar_graficos capitais).
Proof.
  intros Hc Hn. unfold desenhar_graficos.
  apply levanta_bind_r; [by apply so_eventos_chamar|intros _].
  apply levanta_bind_r; [by apply so_eventos_chamar|intros _].
  apply levanta_bind_r; [by apply so_eventos_chamar|intros _].
  apply levanta_bind_r; [apply so_eventos_elevar|intros _].
  apply levanta_bind_r; [apply so_eventos_elevar|intros _].
  apply levanta_bind_r; [by apply so_eventos_chamar|intros _].
  apply levanta_bind_r; [by apply so_eventos_chamar|intros _].
  apply levanta_bind_l. by apply (marcadores_levantam capitais c).
Qed.

Lemma marcadores_KeyError (capitais : list string) (c : string)
    (falha : Ambiente) (log : list evento) :
  c ∈ capitais → coords !! c = None → (∀ k, falha k = false) →
  ∃ evs,
    para_cada capitais (λ capital,
       elevar (coords_getitem capital) ;;
       chamar go_Scattergeo ;;
       chamar add_trace) falha log
    = (log ++ evs, Raise KeyError).
Proof.
  intros Hc Hn Hf. revert log.
  induction capitais as [|x l IH]; intros log; [by apply elem_of_nil in Hc|].
  cbn [para_cada]. unfold mbind, Prog_bind, elevar, coords_getitem, chamar.
  destruct (coords !! x) as [cx|] eqn:Ex.
  - rewrite !Hf.
    assert (c ∈ l) as Hl.
    { apply elem_of_cons in Hc as [->|Hc]; [congruence|done]. }
    destruct (IH Hl ((log ++ [Plotly go_Scattergeo]) ++ [Plotly add_trace]))
      as [evs E].
    fold (para_cada l) in E |- *.
    unfold mbind, Prog_bind, elevar, coords_getitem, chamar in E.
    rewrite E. eexists. by rewrite <- !app_assoc.
  - exists []. by rewrite app_nil_r.
Qed.

(** X3.  A destination that has distances and no entry in [coords] does not
    stop the analysis: the results are printed and the bar chart is drawn,
    and then the run raises; whatever the charting library does, the run
    never returns normally and the map is never shown.  When no chart call
    fails the error is the KeyError of the missing coordinates, raised
    after [fig_bar.show()]. *)
Theorem destino_sem_coordenadas (d : Dados) (df : Analise) (c : string) :
  df_analise d = Ok df → c ∈ capitais_ne d → coords !! c = None →
  (∀ falha, ∃ r e,
     cidade_vencedora df = Ok r
     ∧ (executar d falha []).2 = Raise e
     ∧ saida_console (executar d falha []).1 = resultados_impressos df r
     ∧ Plotly fig_map_show ∉ (executar d falha []).1)
  ∧ (∀ falha, (∀ k, falha k = false) →
       (executar d falha []).2 = Raise KeyError
       ∧ Plotly fig_bar_show ∈ (executar d falha []).1).
Proof.
  intros Hdf Hc Hn.
  destruct (cidade_vencedora_spec d df Hdf) as (i & r & Hr & _).
  split.
  - intros falha. exists r.
    destruct (desenhar_graficos_levanta _ c Hc Hn falha
                (resultados_impressos df r)) as (evs & e & E & F).
    exists e. rewrite (executar_graficos d df r falha Hdf Hr), E.
    split_and!; try done.
    + destruct (executar_log d df r falha Hdf Hr) as (g & Eg & Fg).
      rewrite (executar_graficos d df r falha Hdf Hr), E in Eg.
      cbn [fst] in Eg. apply app_inv_head in Eg as ->.
      apply saida_console_graficos; [by repeat constructor|done].
    + cbn [fst]. intros [Hin|Hin]%elem_of_app.
      * unfold resultados_impressos in Hin.
        repeat (apply elem_of_cons in Hin as [Hin|Hin]; [discriminate|]).
        by apply elem_of_nil in Hin.
      * by destruct (proj1 (Forall_forall _ _) F _ Hin) as [_ ?].
  - intros falha Hf.
    rewrite (executar_graficos d df r falha Hdf Hr).
    unfold desenhar_graficos.
    do 3 (erewrite Prog_bind_Ok by (by apply chamar_Ok)).
    do 2 (erewrite Prog_bind_Ok by reflexivity).
    do 2 (erewrite Prog_bind_Ok by (by apply chamar_Ok)).
    match goal with
    | |- context [para_cada _ ?corpo ≫= _] =>
        destruct (marcadores_KeyError _ c falha
                    (((((resultados_impressos df r ++ [Plotly px_bar])
                         ++ [Plotly fig_bar_show]) ++ [Plotly go_Figure])
                       ++ [Plotly go_Scattergeo]) ++ [Plotly add_trace])
                    Hc Hn Hf) as [evs E]
    end.
    erewrite Prog_bind_Raise by exact E.
    split; [done|]. cbn [fst].
    rewrite !elem_of_app, !elem_of_cons. do 4 left. right. by left.
Qed.

(** ** Which cities are analysed *)

Lemma df_analise_unido (d : Dados) (df : Analise) :
  df_analise d = Ok df →
  ∃ c t p,
    pd_DataFrame2 (custos_imobiliarios d).1 (custos_imobiliarios d).2 = Ok c
    ∧ df_tempos d = Ok t
    ∧ pd_DataFrame2 (potencial_consumo d).1 (potencial_consumo d).2 = Ok p
    ∧ col_Cidade df = (merge (merge c t) p).*1.
Proof.
  intros H. unfold df_analise in H.
  inv_bind H. inv_bind H. inv_bind H. inv_bind H.
  destruct a2 as [|s1 [|s2 [|s3 [|s4 a2]]]]; try discriminate.
  injection H as <-. by exists a, a0, a1.
Qed.

Lemma merge_nil_l {A B : Type} (right : list (string * B)) :
  merge (A:=A) [] right = [].
Proof. done. Qed.

Lemma merge_chave_interna {A B : Type} (k k' : string) (a : A)
    (right : list (string * B)) :
  k' ∈ (right ≫= λ '(k2, b), if decide (k = k2) then [(k, (a, b))] else []).*1
  ↔ k' = k ∧ k ∈ right.*1.
Proof.
  induction right as [|[k2 b] right IH].
  - simpl. rewrite elem_of_nil. split; [done|]. by intros [_ ?%elem_of_nil].
  - rewrite bind_cons, fmap_app, elem_of_app, IH, fmap_cons, elem_of_cons.
    cbn [fst]. case_decide as E.
    + subst k2. cbn [fmap list_fmap fst]. rewrite list_elem_of_singleton.
      intuition congruence.
    + cbn [fmap list_fmap]. rewrite elem_of_nil. intuition congruence.
Qed.

(** The join keeps the keys that occur on both sides. *)
Lemma merge_chaves {A B : Type} (left : list (string * A))
    (right : list (string * B)) (k : string) :
  k ∈ (merge left right).*1 ↔ k ∈ left.*1 ∧ k ∈ right.*1.
Proof.
  induction left as [|[k0 a] left IH].
  - rewrite merge_nil_l. simpl. rewrite elem_of_nil. intuition congruence.
  - rewrite merge_cons_l, fmap_app, elem_of_app, merge_chave_interna, IH.
    rewrite fmap_cons, elem_of_cons. cbn [fst]. intuition congruence.
Qed.

Lemma pd_DataFrame2_chaves (cidades : list string) (coluna : list Q)
    (df : list (string * Q)) :
  pd_DataFrame2 cidades coluna = Ok df → df.*1 = cidades.
Proof.
  intros [-> L]%pd_DataFrame2_Ok. apply fst_zip. lia.
Qed.

Lemma df_tempos_chaves (d : Dados) (tempos : list (string * Q)) :
  df_tempos d = Ok tempos → tempos.*1 = (distancias d).1.
Proof.
  intros (T & -> & L)%df_tempos_forma. apply fst_zip. lia.
Qed.

(** X4.  The analysis keeps exactly the cities that occur in all three
    input dicts: a city missing from one of them is left out without an
    error. *)
Theorem cidades_analisadas (d : Dados) (df : Analise) (c : string) :
  df_analise d = Ok df →
  c ∈ col_Cidade df
  ↔ c ∈ (custos_imobiliarios d).1 ∧ c ∈ (distancias d).1
    ∧ c ∈ (potencial_consumo d).1.
Proof.
  intros (cs & t & p & Hc & Ht & Hp & ->)%df_analise_unido.
  rewrite !merge_chaves.
  rewrite (pd_DataFrame2_chaves _ _ _ Hc), (pd_DataFrame2_chaves _ _ _ Hp).
  rewrite (df_tempos_chaves _ _ Ht). intuition congruence.
Qed.

(** ** Inputs that are refused *)

Lemma sem_chaves_vazia {A : Type} (l : list (string * A)) :
  (∀ k, k ∉ l.*1) → l = [].
Proof.
  destruct l as [|[k a] l]; [done|]. intros H. destruct (H k). by left.
Qed.

(** X5.  When the three dicts are well formed and the average times are
    computed, but no city occurs in all three dicts, the run raises
    ValueError at the scaler, which gets no row; nothing is printed and no
    chart call is made. *)
Theorem sem_cidade_em_comum (d : Dados) (tempos : list (string * Q))
    (falha : Ambiente) :
  length (custos_imobiliarios d).2 = length (custos_imobiliarios d).1 →
  length (potencial_consumo d).2 = length (potencial_consumo d).1 →
  df_tempos d = Ok tempos →
  (∀ c, ¬ (c ∈ (custos_imobiliarios d).1 ∧ c ∈ (distancias d).1
           ∧ c ∈ (potencial_consumo d).1)) →
  executar d falha [] = ([], Raise ValueError).
Proof.
  intros L1 L3 Ht Hn. apply executar_falha.
  unfold df_analise, pd_DataFrame2. rewrite !decide_True, Ht by done.
  cbn [mbind resultado_bind].
  rewrite (sem_chaves_vazia (merge (merge _ _) _)); [done|].
  intros c. rewrite !merge_chaves, (df_tempos_chaves _ _ Ht).
  rewrite !fst_zip by lia. specialize (Hn c). tauto.
Qed.

Lemma mapM_finito_zero (l : list Q) (x : Q) :
  x ∈ l → x == 0 → mapM finito (recip <$> l) = Raise ValueError.
Proof.
  intros Hx H0. induction l as [|y l IH]; [by apply elem_of_nil in Hx|].
  rewrite fmap_cons.
  change (mapM finito (recip y :: (recip <$> l)))
    with (z ← finito (recip y); k ← mapM finito (recip <$> l); mret (z :: k)).
  assert (x = y → recip y = Infinito) as Hy.
  { intros <-. unfold recip. by rewrite (Qeq_eq_bool _ _ H0). }
  destruct (recip y) as [q|]; [|reflexivity].
  apply elem_of_cons in Hx as [Hx|Hx]; [by specialize (Hy Hx)|].
  cbn [finito mbind resultado_bind]. by rewrite (IH Hx).
Qed.

(** X6.  A rent of zero is refused: with the three dicts listing the same
    cities, each once, and the average times computed, the run raises
    ValueError (the inverted cost is infinite and the scaler refuses it);
    nothing is printed and no chart call is made. *)
Theorem custo_zero_e_rejeitado (d : Dados) (tempos : list (string * Q))
    (falha : Ambiente) (x : Q) :
  NoDup (custos_imobiliarios d).1 →
  (distancias d).1 = (custos_imobiliarios d).1 →
  (potencial_consumo d).1 = (custos_imobiliarios d).1 →
  length (custos_imobiliarios d).2 = length (custos_imobiliarios d).1 →
  length (potencial_consumo d).2 = length (custos_imobiliarios d).1 →
  df_tempos d = Ok tempos →
  x ∈ (custos_imobiliarios d).2 → x == 0 →
  executar d falha [] = ([], Raise ValueError).
Proof.
  intros ND E2 E3 L1 L3 Ht Hx H0. apply executar_falha.
  destruct (df_tempos_forma _ _ Ht) as (T & -> & LT).
  unfold df_analise, pd_DataFrame2. rewrite Ht, E2, E3, !decide_True by done.
  cbn [mbind resultado_bind]. rewrite E2 in LT.
  rewrite !merge_mesmas_chaves by (try done; rewrite ?length_zip; lia).
  change (λ r : string * (Q * Q * Q), r.2.1.1)
    with (@fst Q Q ∘ @fst (Q * Q) Q ∘ @snd string (Q * Q * Q)).
  rewrite !list_fmap_compose.
  rewrite snd_zip, !fst_zip by (rewrite ?length_zip; lia).
  unfold fit_transform, check_array.
  match goal with
  | |- context [mapM (mapM finito) (?c1 :: ?X)] =>
      change (mapM (mapM finito) (c1 :: X))
        with (z ← mapM finito c1; k ← mapM (mapM finito) X; mret (z :: k))
  end.
  by rewrite (mapM_finito_zero _ x Hx H0).
Qed.

Lemma converter_em_horas_KeyError (capitais : list string)
    (cols : gmap string (list Q)) (c : string) :
  "Cidade" ∉ capitais → c ∈ capitais → cols !! c = None →
  converter_em_horas capitais cols = Raise KeyError.
Proof.
  revert cols. induction capitais as [|x l IH]; intros cols Hn Hc Hm.
  - by apply elem_of_nil in Hc.
  - apply not_elem_of_cons in Hn as [Hx Hn]. simpl. unfold getitem.
    rewrite decide_False by done.
    destruct (cols !! x) as [col|] eqn:Ex; [|done].
    cbn [mbind resultado_bind]. apply IH; [done| |].
    + apply elem_of_cons in Hc as [->|Hc]; [congruence|done].
    + rewrite lookup_insert_ne; [done|]. intros ->. congruence.
Qed.

(** X7.  A destination of [capitais_ne] that has no column of distances
    stops the run with KeyError before anything is printed (the three dicts
    being well formed and no destination being named 'Cidade'). *)
Theorem destino_sem_distancias (d : Dados) (falha : Ambiente) (c : string) :
  length (custos_imobiliarios d).2 = length (custos_imobiliarios d).1 →
  map_Forall (λ _ col, length col = length (distancias d).1) (distancias d).2 →
  length (potencial_consumo d).2 = length (potencial_consumo d).1 →
  "Cidade" ∉ capitais_ne d →
  c ∈ capitais_ne d → (distancias d).2 !! c = None →
  executar d falha [] = ([], Raise KeyError).
Proof.
  intros L1 HF L3 Hn Hc Hm. apply executar_falha.
  unfold df_analise, pd_DataFrame2, df_tempos, pd_DataFrame.
  rewrite !decide_True by done. cbn [mbind resultado_bind df_colunas].
  by rewrite (converter_em_horas_KeyError _ _ c Hn Hc Hm).
Qed.

Lemma pd_DataFrame2_igual (cidades : list string) (coluna : list Q) :
  length coluna = length cidades →
  pd_DataFrame2 cidades coluna = Ok (zip cidades coluna).
Proof. intros L. unfold pd_DataFrame2. by rewrite decide_True. Qed.

Lemma pd_DataFrame2_diferente (cidades : list string) (coluna : list Q) :
  length coluna ≠ length cidades →
  pd_DataFrame2 cidades coluna = Raise ValueError.
Proof. intros L. unfold pd_DataFrame2. by rewrite decide_False. Qed.

(** X8.  A dict whose numeric column has not one entry per city is
    refused: when this holds of the rents or of a column of distances, the
    run raises ValueError before anything is printed. *)
Theorem dict_irregular_rejeitado (d : Dados) (falha : Ambiente) :
  length (custos_imobiliarios d).2 ≠ length (custos_imobiliarios d).1
  ∨ ¬ map_Forall (λ _ col, length col = length (distancias d).1)
        (distancias d).2 →
  executar d falha [] = ([], Raise ValueError).
Proof.
  intros H. apply executar_falha. unfold df_analise.
  destruct (decide (length (custos_imobiliarios d).2
                    = length (custos_imobiliarios d).1)) as [L1|L1].
  - destruct H as [H|H]; [by destruct H|].
    rewrite (pd_DataFrame2_igual _ _ L1). cbn [mbind resultado_bind].
    unfold df_tempos, pd_DataFrame. by rewrite decide_False.
  - by rewrite (pd_DataFrame2_diferente _ _ L1).
Qed.

(** ** The final score and the metrics *)


(** ** The rows and the input *)

(** X13.  When the three dicts list the same cities, each once, the frame
    of a successful analysis has one row per city, in the order of the
    input, and the row of a city carries the rent and the economic output
    the input gives for that city. *)
Theorem linhas_das_cidades_de_entrada (d : Dados) (df : Analise) (ks : list string)
    (i : nat) :
  df_analise d = Ok df → NoDup ks →
  (custos_imobiliarios d).1 = ks → (distancias d).1 = ks →
  (potencial_consumo d).1 = ks →
  (is_Some (ks !! i) → is_Some (linha df i))
  ∧ ∀ r, linha df i = Some r →
      ks !! i = Some (Cidade r)
      ∧ (custos_imobiliarios d).2 !! i = Some (Custo_m2_Aluguel r)
      ∧ (potencial_consumo d).2 !! i = Some (Potencial_PIB_Vizinhos r).
Proof.
  intros Hdf ND E1 E2 E3.
  destruct (linhas_na_ordem_de_entrada d df ks Hdf ND E1 E2 E3)
    as (C1 & C2 & C3 & _).
  split.
  - intros Hi%lookup_lt_is_Some. rewrite <- C1 in Hi.
    destruct (linha_existe d df Hdf i Hi) as [r Hr]. by exists r.
  - intros r Hr.
    destruct (linha_campos df i r Hr) as (H1 & H2 & _ & H4 & _).
    by rewrite <- C1, <- C2, <- C3.
Qed.

(** ** Average delivery time and distances *)




(** ** A third city *)

(** X16.  The ranking of two cities depends on the other cities of the run,
    because every criterion is normalized over all of them: with the data
    and the weights of the script Recife wins, and with a third city added
    that is worse than Recife and Salvador on all three criteria Salvador
    wins. *)
Theorem terceira_cidade_inverte_o_resultado :
  ∃ r r3 ra rb rc,
    df_analise dados = Ok df_referencia
    ∧ df_analise dados_com_terceira_cidade = Ok df_com_terceira_cidade
    ∧ cidade_vencedora df_referencia = Ok r ∧ Cidade r = "Recife"
    ∧ cidade_vencedora df_com_terceira_cidade = Ok r3 ∧ Cidade r3 = "Salvador"
    ∧ linhas df_com_terceira_cidade = [ra; rb; rc]
    ∧ Cidade ra = "Recife" ∧ Cidade rb = "Salvador"
    ∧ Custo_m2_Aluguel ra < Custo_m2_Aluguel rc
    ∧ Custo_m2_Aluguel rb < Custo_m2_Aluguel rc
    ∧ Tempo_Medio_Entrega ra < Tempo_Medio_Entrega rc
    ∧ Tempo_Medio_Entrega rb < Tempo_Medio_Entrega rc
    ∧ Potencial_PIB_Vizinhos rc < Potencial_PIB_Vizinhos ra
    ∧ Potencial_PIB_Vizinhos rc < Potencial_PIB_Vizinhos rb
    ∧ Pontuacao_Final ra < Pontuacao_Final rb.
Proof.
  eexists _, _, _, _, _.
  split; [vm_compute; reflexivity|]. split; [vm_compute; reflexivity|].
  split; [vm_compute; reflexivity|]. split; [reflexivity|].
  split; [vm_compute; reflexivity|]. split; [reflexivity|].
  split; [vm_compute; reflexivity|].
  repeat split.
Qed.

(** ** The scores in binary64 *)

(** A float that is neither NaN nor an infinity is a zero or a finite
    number. *)
Lemma finito_Prim2SF (p : PrimFloat.float) :
  PrimFloat.is_finite p = true →
  (∃ s, Prim2SF p = S754_zero s) ∨ (∃ s m e, Prim2SF p = S754_finite s m e).
Proof.
  unfold PrimFloat.is_finite, PrimFloat.is_nan, PrimFloat.is_infinity.
  rewrite !FloatAxioms.eqb_spec, FloatAxioms.abs_spec.
  destruct (Prim2SF p) as [s|s| |s m e] eqn:E; [by eauto| | |by eauto 6].
  - intros H. exfalso. revert H. destruct s; vm_compute; discriminate.
  - intros H. exfalso. revert H. vm_compute. discriminate.
Qed.

(** [p + (0 - p)] is exactly [+0.0]: the two roundings of [X * scale_] and
    of [data_min * scale_] are the same float, and their difference is
    computed without error. *)
Lemma soma_com_o_oposto (p : PrimFloat.float) :
  PrimFloat.is_finite p = true → (p + (0 - p))%float = 0%float.
Proof.
  intros H. apply Prim2SF_inj.
  rewrite FloatAxioms.add_spec, FloatAxioms.sub_spec.
  change (Prim2SF 0) with (S754_zero false).
  destruct (finito_Prim2SF p H) as [[s ->]|(s & m & e & ->)].
  - by destruct s.
  - unfold SF64sub, SF64add, SFsub, SFadd.
    rewrite Z.min_id. unfold shl_align. rewrite Z.sub_diag. cbn [fst].
    destruct s; cbn [negb cond_Zopp];
      rewrite ?Z.add_opp_diag_r, ?Z.add_opp_diag_l; reflexivity.
Qed.

Lemma b64_minimo_constante (m : PrimFloat.float) (col : list PrimFloat.float) :
  Forall (λ x, x = m) col → col ≠ [] → B64.minimo col = m.
Proof.
  intros H N. destruct H as [|x col -> H]; [done|]. simpl. clear N.
  induction H as [|y col -> _ IH]; [done|]. simpl. by destruct (m <? m)%float.
Qed.

(** X17.  In binary64 a city holding the minimum of a metric receives the
    sub-score 0.0 exactly, whenever the product of the minimum and the
    scale is a finite float. *)
Theorem b64_minimo_recebe_zero (col : list PrimFloat.float) (i : nat)
    (x : PrimFloat.float) :
  col !! i = Some x → x = B64.minimo col →
  PrimFloat.is_finite (x * B64.scale_ (B64.fit col)) = true →
  B64.transform (B64.fit col) col !! i = Some 0%float.
Proof.
  intros Hi -> H. unfold B64.transform. rewrite list_lookup_fmap, Hi.
  cbn [fmap option_fmap option_map]. f_equal.
  change (B64.min_ (B64.fit col))
    with (0 - B64.minimo col * B64.scale_ (B64.fit col))%float.
  by apply soma_com_o_oposto.
Qed.

(** X18.  In binary64 a metric that has the same value for every city gives
    every city the sub-score 0.0, whenever the product of that value and
    the scale is a finite float. *)
Theorem b64_normalizacao_degenerada (col : list PrimFloat.float)
    (m : PrimFloat.float) :
  col ≠ [] → Forall (λ x, x = m) col →
  PrimFloat.is_finite (m * B64.scale_ (B64.fit col)) = true →
  B64.transform (B64.fit col) col = (λ _, 0%float) <$> col.
Proof.
  intros N H Hf. apply list_eq. intros i. rewrite list_lookup_fmap.
  destruct (col !! i) as [x|] eqn:Hi.
  - pose proof (proj1 (Forall_lookup _ _) H i x Hi) as Hx. cbn beta in Hx.
    apply (b64_minimo_recebe_zero col i x); [done| |].
    + by rewrite (b64_minimo_constante m col).
    + by rewrite Hx.
  - unfold B64.transform. by rewrite list_lookup_fmap, Hi.
Qed.



(** X20.  The binary64 run on the data of the script: the average times
    are 11.066666666666666 and 16.326190476190476 hours, the economic
    outputs 51.6 and 56.3, Recife gets the sub-scores 1, 1, 0 and Salvador
    0, 0, 1, and the final scores are the floats 0.7 and 0.3, the one of
    Recife being the greater. *)
Theorem b64_analise_dos_dados_do_script :
  ∃ df,
    B64.df_analise B64.pesos B64.dados = Ok df ∧ df = b64_df_referencia
    ∧ B64.col_Tempo_Medio_Entrega df
      = [11.066666666666666; 16.326190476190476]%float
    ∧ B64.col_Potencial_PIB_Vizinhos df = [51.6; 56.3]%float
    ∧ B64.col_Score_Custo df = [1; 0]%float
    ∧ B64.col_Score_Logistica df = [1; 0]%float
    ∧ B64.col_Score_Consumo df = [0; 1]%float
    ∧ B64.col_Pontuacao_Final df = [0.7; 0.3]%float
    ∧ (0.3 <? 0.7)%float = true.
Proof. eexists. split; [vm_compute; reflexivity|]. repeat split. Qed.

(** ** The further properties at concrete data *)

Lemma coordenadas_dos_destinos :
  Forall (λ c, is_Some (coords !! c)) (capitais_ne dados).
Proof.
  repeat (apply Forall_cons; split; [by eexists|]). apply Forall_nil_2.
Defined.

Lemma execucao_sem_falhas_witness :
  ∃ r, cidade_vencedora df_referencia = Ok r
    ∧ executar dados sem_falhas []
      = (resultados_impressos df_referencia r
           ++ (Plotly <$> chamadas_dos_graficos (capitais_ne dados)),
         Ok ())
    ∧ length (chamadas_dos_graficos (capitais_ne dados))
      = (7 + 4 * length (capitais_ne dados))%nat
    ∧ last (chamadas_dos_graficos (capitais_ne dados)) = Some fig_map_show.
Proof.
  apply (execucao_sem_falhas dados df_referencia sem_falhas).
  - exact df_analise_dados.
  - exact coordenadas_dos_destinos.
  - reflexivity.
Defined.

Lemma primeira_falha_interrompe_witness :
  ∃ r, cidade_vencedora df_referencia = Ok r
    ∧ executar dados falha_em_fig_bar_show []
      = (resultados_impressos df_referencia r
           ++ (Plotly <$> take 2 (chamadas_dos_graficos (capitais_ne dados))),
         Raise PlotlyError).
Proof.
  apply (primeira_falha_interrompe dados df_referencia falha_em_fig_bar_show 1).
  - exact df_analise_dados.
  - exact coordenadas_dos_destinos.
  - simpl. lia.
  - reflexivity.
  - intros j Hj. assert (j = 0%nat) as -> by lia. reflexivity.
Defined.

Lemma destino_sem_coordenadas_witness :
  (∀ falha, ∃ r e,
     cidade_vencedora df_destino_sem_coordenadas = Ok r
     ∧ (executar dados_destino_sem_coordenadas falha []).2 = Raise e
     ∧ saida_console (executar dados_destino_sem_coordenadas falha []).1
       = resultados_impressos df_destino_sem_coordenadas r
     ∧ Plotly fig_map_show ∉ (executar dados_destino_sem_coordenadas falha []).1)
  ∧ (∀ falha, (∀ k, falha k = false) →
       (executar dados_destino_sem_coordenadas falha []).2 = Raise KeyError
       ∧ Plotly fig_bar_show
         ∈ (executar dados_destino_sem_coordenadas falha []).1).
Proof.
  apply (destino_sem_coordenadas dados_destino_sem_coordenadas
           df_destino_sem_coordenadas "Palmas").
  - vm_compute. reflexivity.
  - right. by left.
  - reflexivity.
Defined.

Lemma cidades_analisadas_witness :
  col_Cidade df_cidade_a_mais = ["Recife"; "Salvador"]
  ∧ ("Fortaleza" ∈ col_Cidade df_cidade_a_mais
     ↔ "Fortaleza" ∈ (custos_imobiliarios dados_cidade_a_mais).1
       ∧ "Fortaleza" ∈ (distancias dados_cidade_a_mais).1
       ∧ "Fortaleza" ∈ (potencial_consumo dados_cidade_a_mais).1).
Proof.
  split; [reflexivity|].
  apply (cidades_analisadas dados_cidade_a_mais df_cidade_a_mais "Fortaleza").
  vm_compute. reflexivity.
Defined.

Lemma sem_cidade_em_comum_witness :
  executar dados_sem_cidade_em_comum sem_falhas [] = ([], Raise ValueError).
Proof.
  apply (sem_cidade_em_comum dados_sem_cidade_em_comum
           [("Recife", Tempo_Medio_Entrega linha_recife);
            ("Salvador", Tempo_Medio_Entrega linha_salvador)]).
  - reflexivity.
  - reflexivity.
  - vm_compute. reflexivity.
  - intros c (H1 & H2 & _). cbn in H1, H2.
    apply list_elem_of_singleton in H1 as ->.
    rewrite !elem_of_cons, elem_of_nil in H2.
    destruct H2 as [H2|[H2|[]]]; discriminate.
Defined.

Lemma custo_zero_e_rejeitado_witness :
  executar dados_custo_zero sem_falhas [] = ([], Raise ValueError).
Proof.
  apply (custo_zero_e_rejeitado dados_custo_zero
           [("Recife", Tempo_Medio_Entrega linha_recife);
            ("Salvador", Tempo_Medio_Entrega linha_salvador)]
           sem_falhas 0).
  - compute_done.
  - reflexivity.
  - reflexivity.
  - reflexivity.
  - reflexivity.
  - vm_compute. reflexivity.
  - by left.
  - reflexivity.
Defined.

Lemma destino_sem_distancias_witness :
  executar dados_destino_sem_distancias sem_falhas [] = ([], Raise KeyError).
Proof.
  apply (destino_sem_distancias dados_destino_sem_distancias sem_falhas "Palmas").
  - reflexivity.
  - compute_done.
  - reflexivity.
  - compute_done.
  - right. by left.
  - reflexivity.
Defined.

Lemma dict_irregular_rejeitado_witness :
  executar dados_irregulares sem_falhas [] = ([], Raise ValueError).
Proof.
  apply (dict_irregular_rejeitado dados_irregulares sem_falhas).
  left. simpl. lia.
Defined.


Lemma linhas_das_cidades_de_entrada_witness :
  (is_Some ((custos_imobiliarios dados).1 !! 1%nat)
   → is_Some (linha df_referencia 1))
  ∧ ∀ r, linha df_referencia 1 = Some r →
      (custos_imobiliarios dados).1 !! 1%nat = Some (Cidade r)
      ∧ (custos_imobiliarios dados).2 !! 1%nat = Some (Custo_m2_Aluguel r)
      ∧ (potencial_consumo dados).2 !! 1%nat = Some (Potencial_PIB_Vizinhos r).
Proof.
  apply (linhas_das_cidades_de_entrada dados df_referencia
           (custos_imobiliarios dados).1 1).
  - exact df_analise_dados.
  - compute_done.
  - reflexivity.
  - reflexivity.
  - reflexivity.
Defined.


Lemma b64_minimo_recebe_zero_witness :
  B64.transform (B64.fit [1 / 18.50; 1 / 30.00]%float)
    [1 / 18.50; 1 / 30.00]%float !! 1%nat
  = Some 0%float.
Proof.
  apply (b64_minimo_recebe_zero [1 / 18.50; 1 / 30.00]%float 1
           (1 / 30.00)%float).
  - reflexivity.
  - vm_compute. reflexivity.
  - vm_compute. reflexivity.
Defined.

Lemma b64_normalizacao_degenerada_witness :
  B64.transform (B64.fit [51.6; 51.6]%float) [51.6; 51.6]%float
  = (λ _, 0%float) <$> [51.6; 51.6]%float.
Proof.
  apply (b64_normalizacao_degenerada [51.6; 51.6]%float 51.6%float).
  - done.
  - by repeat constructor.
  - vm_compute. reflexivity.
Defined.

